(** * A shallow embedding of the poll server (server.js)

    server.js registers four route handlers on a Fastify instance.  Each
    handler builds a [params] object, awaits at most one call of the database
    helper [db], and replies either with the raw object or with a rendered
    page.  The handlers are embedded as computations in a state monad whose
    state is the storage behind [db] together with a journal of the helper
    calls made so far.  A handler that reads a field of a body that is not
    there throws before it replies; that is an outcome of its own.  Console
    output is not part of the model. *)

From Stdlib Require Import String List Bool Arith Lia.
From ExtLib Require Import Structures.Monad Structures.MonadState.
From ExtLib Require Import Data.Monads.StateMonad.
Import ListNotations.
Import MonadNotation.
Local Open Scope monad_scope.
Local Open Scope string_scope.

(** ** JavaScript values as the handlers see them *)

Module Js.

(** A request field, a query flag or an environment variable: a string, or
    [undefined] when it is missing. *)
Definition optstring : Type := option string.

(** Truthiness of such a value: [undefined] and the empty string are falsy,
    every other string is truthy. *)
Definition truthy (v : optstring) : bool :=
  match v with
  | None => false
  | Some s => negb (s =? "")
  end.

(** [a !== b] on such values. *)
Definition strictNeq (a b : optstring) : bool :=
  match a, b with
  | None, None => false
  | Some x, Some y => negb (x =? y)
  | _, _ => true
  end.

(** A property of [params] that one branch sets to a string, another to
    [null], and a third never assigns. *)
Inductive Field (A : Type) : Type :=
| Unset
| Null
| Val (a : A).

Arguments Unset {A}.
Arguments Null {A}.
Arguments Val {A} a.

(** What an awaited helper call hands back: an array of rows, which is
    truthy even when it is empty, or a falsy value (what the helper is left
    with when its query failed). *)
Inductive DbResult (A : Type) : Type :=
| Falsy
| Rows (rows : list A).

Arguments Falsy {A}.
Arguments Rows {A} rows.

Definition ok {A : Type} (r : DbResult A) : bool :=
  match r with
  | Falsy => false
  | Rows _ => true
  end.

End Js.
Import Js.

(** ** Data model *)

(** A row of the choices table, as [options.map] reads it. *)
Record Choice : Type := mkChoice {
  language : string;
  picks : nat
}.

(** A row of the vote log. *)
Record LogEntry : Type := mkLogEntry {
  choice : string;
  time : nat
}.

(** seo.json after loading. *)
Record Seo : Type := mkSeo {
  url : string
}.

(** data.json: the two user-facing messages.  Its third entry,
    [data.database], names the storage adapter, which is the [Db] instance
    below. *)
Record Data : Type := mkData {
  errorMessage : string;
  setupMessage : string
}.

(** process.env, as far as the handlers read it. *)
Record Env : Type := mkEnv {
  ADMIN_KEY : optstring
}.

(** The [params] object handed to [reply.send] or [reply.view].  A property
    that was never assigned is [None] (or [Unset]). *)
Record Params : Type := mkParams {
  seo : option Seo;
  results : option bool;
  optionNames : option (list string);
  optionCounts : option (list nat);
  optionHistory : option (DbResult LogEntry);
  error : Field string;
  setup : optstring;
  failed : optstring
}.

(** [{}] *)
Definition emptyParams : Params :=
  mkParams None None None None None Unset None None.

Definition set_seo (v : Seo) (p : Params) : Params :=
  mkParams (Some v) (results p) (optionNames p) (optionCounts p)
           (optionHistory p) (error p) (setup p) (failed p).

Definition set_results (v : bool) (p : Params) : Params :=
  mkParams (seo p) (Some v) (optionNames p) (optionCounts p)
           (optionHistory p) (error p) (setup p) (failed p).

Definition set_optionNames (v : list string) (p : Params) : Params :=
  mkParams (seo p) (results p) (Some v) (optionCounts p)
           (optionHistory p) (error p) (setup p) (failed p).

Definition set_optionCounts (v : list nat) (p : Params) : Params :=
  mkParams (seo p) (results p) (optionNames p) (Some v)
           (optionHistory p) (error p) (setup p) (failed p).

Definition set_optionHistory (v : DbResult LogEntry) (p : Params) : Params :=
  mkParams (seo p) (results p) (optionNames p) (optionCounts p)
           (Some v) (error p) (setup p) (failed p).

Definition set_error (v : Field string) (p : Params) : Params :=
  mkParams (seo p) (results p) (optionNames p) (optionCounts p)
           (optionHistory p) v (setup p) (failed p).

Definition set_setup (v : string) (p : Params) : Params :=
  mkParams (seo p) (results p) (optionNames p) (optionCounts p)
           (optionHistory p) (error p) (Some v) (failed p).

Definition set_failed (v : string) (p : Params) : Params :=
  mkParams (seo p) (results p) (optionNames p) (optionCounts p)
           (optionHistory p) (error p) (setup p) (Some v).

(** ** Requests and replies *)

Record Query : Type := mkQuery {
  raw : optstring
}.

(** The parsed form body; a field the client did not send is [None]. *)
Record Body : Type := mkBody {
  body_language : optstring;
  body_key : optstring
}.

(** [request.body] is [undefined] ([None]) when the client sent no body. *)
Record Request : Type := mkRequest {
  query : Query;
  body : option Body
}.

(** [reply.send(params)] or [reply.view(page, params)]. *)
Inductive Payload : Type :=
| Send (p : Params)
| View (page : string) (p : Params).

Record Reply : Type := mkReply {
  status : nat;
  payload : Payload
}.

Definition sent (r : Reply) : Params :=
  match payload r with
  | Send p => p
  | View _ p => p
  end.

(** The status of a reply on which the handler never called
    [reply.status]. *)
Definition defaultStatus : nat := 200.

(** How a handler call ends: with the reply it sent, or with the TypeError
    of reading [property] of [undefined], thrown before any reply. *)
Inductive Outcome : Type :=
| Replied (r : Reply)
| Threw (property : string).

(** The four routes of the poll. *)
Inductive Route : Type :=
| GET_root
| POST_root
| GET_logs
| POST_reset.

(** The [language] the client sent, if any: missing when the body lacks
    the field and when there is no body. *)
Definition languageOf (request : Request) : optstring :=
  match body request with
  | Some b => body_language b
  | None => None
  end.

(** The [key] the client provided, if any. *)
Definition keyOf (request : Request) : optstring :=
  match body request with
  | Some b => body_key b
  | None => None
  end.

(** The handler of the route reads a field of [request.body], and the
    request has no body. *)
Definition bodyMissing (route : Route) (request : Request) : bool :=
  match route, body request with
  | (POST_root | POST_reset), None => true
  | _, _ => false
  end.

(** ** The database helper *)

(** The four helper functions the handlers call.  The adapter module is
    chosen by [data.database]; every adapter is an instance of this
    interface over its own storage. *)
Class Db (S : Type) : Type := {
  getOptions : S -> DbResult Choice * S;
  processVote : string -> S -> DbResult Choice * S;
  getLogs : S -> DbResult LogEntry * S;
  clearHistory : S -> DbResult LogEntry * S
}.

Inductive DbCall : Type :=
| CallGetOptions
| CallProcessVote (vote : string)
| CallGetLogs
| CallClearHistory.

(** The two helper functions that write. *)
Definition mutating (c : DbCall) : bool :=
  match c with
  | CallProcessVote _ | CallClearHistory => true
  | CallGetOptions | CallGetLogs => false
  end.

(** A journal line: which helper function was called and whether what it
    returned was truthy. *)
Record Event : Type := mkEvent {
  called : DbCall;
  truthyResult : bool
}.

Record World (S : Type) : Type := mkWorld {
  store : S;
  journal : list Event
}.

Arguments mkWorld {S} store journal.
Arguments store {S} w.
Arguments journal {S} w.

Abbreviation Handler S := (state (World S)).

(** [await db.f(...)]: run the helper on the storage and journal the call. *)
Definition await {S A : Type} (c : DbCall) (f : S -> DbResult A * S)
  : Handler S (DbResult A) :=
  w <- get ;;
  let '(r, s) := f (store w) in
  put (mkWorld s (journal w ++ [mkEvent c (ok r)])) ;;
  ret r.

(** The journal lines a handler added to [w] on the way to [w']. *)
Definition newCalls {S : Type} (w w' : World S) : list Event :=
  skipn (length (journal w)) (journal w').

(** Some helper call of the given journal lines came back falsy. *)
Definition storageFailed (calls : list Event) : bool :=
  existsb (fun e => negb (truthyResult e)) calls.

(** ** The route handlers *)

Section Server.

Context {S : Type} {db : Db S}.
Variable seoData : Seo.
Variable data : Data.
Variable env : Env.

(** [let params = request.query.raw ? {} : { seo: seo };] *)
Definition initParams (request : Request) : Params :=
  if truthy (raw (query request)) then emptyParams
  else set_seo seoData emptyParams.

(** [request.query.raw ? reply.status(code).send(params)
                       : reply.status(code).view(page, params)] *)
Definition respond (request : Request) (code : nat) (page : string)
           (params : Params) : Reply :=
  if truthy (raw (query request)) then mkReply code (Send params)
  else mkReply code (View page params).

(** [params.optionHistory ? null : data.errorMessage] *)
Definition historyError (params : Params) : Field string :=
  match optionHistory params with
  | Some (Rows _) => Null
  | _ => Val (errorMessage data)
  end.

(** [fastify.get("/", ...)], lines 80-106.  The handler does not read the
    body. *)
Definition get_root (request : Request) : Handler S Reply :=
  let params := initParams request in
  options <- await CallGetOptions getOptions ;;
  let params :=
    match options with
    | Rows rows =>
        set_optionCounts (map picks rows)
          (set_optionNames (map language rows) params)
    | Falsy => set_error (Val (errorMessage data)) params
    end in
  let params :=
    match options, optionNames params with
    | Rows _, Some names =>
        if (length names <? 1)%nat then set_setup (setupMessage data) params
        else params
    | _, _ => params
    end in
  ret (respond request defaultStatus "/src/pages/index.hbs" params).

(** [fastify.post("/", ...)], lines 115-138.  Line 124 reads
    [request.body.language] without a guard on [request.body], so it throws
    when there is no body.  [options] is declared without a value, so it is
    still [undefined], which is falsy, when the test of line 124 skips the
    helper call. *)
Definition post_root (request : Request) : Handler S Outcome :=
  let params := initParams request in
  let params := set_results true params in
  match body request with
  | None => ret (Threw "language")
  | Some b =>
      let skip : Handler S (DbResult Choice * Params) :=
        ret (Falsy, params) in
      '(options, params) <-
        match body_language b with
        | Some vote =>
            if truthy (Some vote) then
              options <- await (CallProcessVote vote) (processVote vote) ;;
              match options with
              | Rows rows =>
                  ret (options,
                       set_optionCounts (map picks rows)
                         (set_optionNames (map language rows) params))
              | Falsy => ret (options, params)
              end
            else skip
        | None => skip
        end ;;
      let params :=
        set_error (if ok options then Null else Val (errorMessage data))
                  params in
      ret (Replied
             (respond request defaultStatus "/src/pages/index.hbs" params))
  end.

(** [fastify.get("/logs", ...)], lines 145-159.  The handler does not read
    the body. *)
Definition get_logs (request : Request) : Handler S Reply :=
  let params := initParams request in
  logs <- await CallGetLogs getLogs ;;
  let params := set_optionHistory logs params in
  let params := set_error (historyError params) params in
  ret (respond request defaultStatus "/src/pages/admin.hbs" params).

(** The guard of lines 249-254 on a body that is there; [||] evaluates
    left to right, so [request.body.key.length] is only read when the key
    is a string. *)
Definition authFails (b : Body) : bool :=
  match body_key b with
  | None => true
  | Some k =>
      negb (truthy (Some k))
      || (String.length k <? 1)%nat
      || negb (truthy (ADMIN_KEY env))
      || strictNeq (Some k) (ADMIN_KEY env)
  end.

Definition invalidCredentials : string := "You entered invalid credentials!".

(** [fastify.post("/reset", ...)], lines 242-276.  Line 250 reads
    [request.body.key] without a guard on [request.body], so it throws when
    there is no body. *)
Definition post_reset (request : Request) : Handler S Outcome :=
  let params := initParams request in
  match body request with
  | None => ret (Threw "key")
  | Some b =>
      params <-
        (if authFails b then
           let params := set_failed invalidCredentials params in
           logs <- await CallGetLogs getLogs ;;
           ret (set_optionHistory logs params)
         else
           logs <- await CallClearHistory clearHistory ;;
           let params := set_optionHistory logs params in
           ret (set_error (historyError params) params)) ;;
      let code := if truthy (failed params) then 401 else 200 in
      ret (Replied (respond request code "/src/pages/admin.hbs" params))
  end.

Definition handle (route : Route) (request : Request) : Handler S Outcome :=
  match route with
  | GET_root => reply <- get_root request ;; ret (Replied reply)
  | POST_root => post_root request
  | GET_logs => reply <- get_logs request ;; ret (Replied reply)
  | POST_reset => post_reset request
  end.

(** Requests served one after the other on the same storage. *)
Fixpoint serve (requests : list (Route * Request)) (w : World S)
  : list Outcome * World S :=
  match requests with
  | [] => ([], w)
  | (route, request) :: rest =>
      let '(outcome, w1) := runState (handle route request) w in
      let '(outcomes, w2) := serve rest w1 in
      (outcome :: outcomes, w2)
  end.

(** What GET / sends for a given result of [getOptions]. *)
Definition rootParams (request : Request) (options : DbResult Choice)
  : Params :=
  match options with
  | Falsy => set_error (Val (errorMessage data)) (initParams request)
  | Rows rows =>
      let listed :=
        set_optionCounts (map picks rows)
          (set_optionNames (map language rows) (initParams request)) in
      match rows with
      | [] => set_setup (setupMessage data) listed
      | _ :: _ => listed
      end
  end.

(** What POST / sends after [processVote] returned. *)
Definition votedParams (request : Request) (options : DbResult Choice)
  : Params :=
  match options with
  | Falsy =>
      set_error (Val (errorMessage data))
        (set_results true (initParams request))
  | Rows rows =>
      set_error Null
        (set_optionCounts (map picks rows)
           (set_optionNames (map language rows)
              (set_results true (initParams request))))
  end.

(** A POST /reset whose body is there and whose key fails the guard. *)
Definition refused (route : Route) (request : Request) : bool :=
  match route, body request with
  | POST_reset, Some b => authFails b
  | _, _ => false
  end.

End Server.

(** A POST / whose vote is empty or missing. *)
Definition voteMissing (route : Route) (request : Request) : bool :=
  match route with
  | POST_root => negb (truthy (languageOf request))
  | _ => false
  end.

(** The routes that neither vote nor reset. *)
Definition reading (route : Route) : bool :=
  match route with
  | GET_root | GET_logs => true
  | POST_root | POST_reset => false
  end.

(** An error is reported when the [error] property holds a message. *)
Definition reportsError (p : Params) : bool :=
  match error p with
  | Val _ => true
  | _ => false
  end.

(** Following the spec's words: the authorization rule of [resetHistory].
    The provided key is non-empty, the configured key is non-empty, and the
    two are exactly equal. *)
Definition credentialsMatch (providedKey configuredKey : optstring) : bool :=
  match providedKey, configuredKey with
  | Some p, Some c => negb (p =? "") && negb (c =? "") && (p =? c)
  | _, _ => false
  end.

(** The spec's sentence on a missing vote, at one request: the reply to a
    POST / without a vote reports no error. *)
Definition emptyVoteUnreported {S : Type} {db : Db S} (seoData : Seo)
           (data : Data) (request : Request) (w : World S) : Prop :=
  truthy (languageOf request) = false ->
  forall reply,
    fst (runState (post_root seoData data request) w) = Replied reply ->
    reportsError (sent reply) = false.

(** The spec's sentence on storage failures, at one request: the reply
    carries the generic message when a helper call of the handler came back
    falsy, and reports no error otherwise. *)
Definition errorFollowsStorage {S : Type} {db : Db S} (seoData : Seo)
           (data : Data) (env : Env) (route : Route) (request : Request)
           (w : World S) : Prop :=
  let run := runState (handle seoData data env route request) w in
  forall reply,
    fst run = Replied reply ->
    (storageFailed (newCalls w (snd run)) = true ->
     error (sent reply) = Val (errorMessage data))
    /\ (storageFailed (newCalls w (snd run)) = false ->
        reportsError (sent reply) = false).

(** ** The storage behind the helper *)

Module Tally.

(** Modelled from the spec: the storage adapter ([./src/<data.database>])
    is not part of server.js.  Its state is the spec's data model: the
    Options with their pick counts, in storage order, and the append-only
    history of LogEntry records; [clock] supplies the timestamp of the
    next entry. *)
Record Store : Type := mkStore {
  choices : list Choice;
  history : list LogEntry;
  clock : nat
}.

(** Modelled from the spec: [listOptions], missing with the adapter.
    "No side effects.  Returns options in whatever order storage
    provides." *)
Definition listOptions (s : Store) : DbResult Choice * Store :=
  (Rows (choices s), s).

(** Modelled from the spec: the test of [recordVote] for "the matching
    Option", missing with the adapter. *)
Definition known (name : string) (s : Store) : bool :=
  existsb (fun c => language c =? name) (choices s).

(** Modelled from the spec: the effect of [recordVote] on one Option,
    missing with the adapter; it "increments the matching Option's picks"
    and leaves every other Option alone. *)
Definition increment (name : string) (c : Choice) : Choice :=
  if language c =? name then mkChoice (language c) (1 + picks c) else c.

(** Modelled from the spec: [recordVote], missing with the adapter.
    "Atomically increments the matching Option's picks and appends a
    LogEntry"; a name that matches no Option is tolerated silently and
    changes nothing.  "Returns the refreshed option list." *)
Definition recordVote (name : string) (s : Store)
  : DbResult Choice * Store :=
  let s' :=
    if known name s then
      mkStore (map (increment name) (choices s))
              (history s ++ [mkLogEntry name (clock s)])
              (1 + clock s)
    else s in
  (Rows (choices s'), s').

(** Modelled from the spec: [getHistory], missing with the adapter.
    "Read-only." *)
Definition getHistory (s : Store) : DbResult LogEntry * Store :=
  (Rows (history s), s).

(** Modelled from the spec: the effect of a reset on one Option, missing
    with the adapter; it "resets all picks to zero". *)
Definition zeroed (c : Choice) : Choice := mkChoice (language c) 0.

(** Modelled from the spec: the storage half of [resetHistory], missing
    with the adapter.  "Atomically clears all counts and the log, then
    returns the now-empty history." *)
Definition clearAll (s : Store) : DbResult LogEntry * Store :=
  let s' := mkStore (map zeroed (choices s)) [] (clock s) in
  (Rows (history s'), s').

(** Sum of all [picks] across Options. *)
Definition totalPicks (s : Store) : nat :=
  list_sum (map picks (choices s)).

(** The names of the Options, which the spec requires to be unique. *)
Definition names (s : Store) : list string :=
  map language (choices s).

(** The tally and the log agree. *)
Definition consistent (s : Store) : Prop :=
  totalPicks s = length (history s).

(** The storage after each vote of a sequence, oldest first. *)
Fixpoint statesAfter (votes : list string) (s : Store) : list Store :=
  match votes with
  | [] => []
  | v :: rest =>
      let s' := snd (recordVote v s) in
      s' :: statesAfter rest s'
  end.

(** A freshly set-up poll: every Option at zero, nothing logged. *)
Definition fresh (options : list string) : Store :=
  mkStore (map (fun n => mkChoice n 0) options) [] 0.

End Tally.

#[global] Instance TallyDb : Db Tally.Store := {
  getOptions := Tally.listOptions;
  processVote := Tally.recordVote;
  getLogs := Tally.getHistory;
  clearHistory := Tally.clearAll
}.

(** A storage adapter none of whose queries succeeds. *)
#[global] Instance OfflineDb : Db unit := {
  getOptions := fun s => (Falsy, s);
  processVote := fun _ s => (Falsy, s);
  getLogs := fun s => (Falsy, s);
  clearHistory := fun s => (Falsy, s)
}.

(** Modelled from the spec: the contract of the helper's two reading
    functions, whose code is missing with the adapter.  [listOptions] has
    "no side effects" and [getHistory] is "read-only". *)
Definition readOnly {S : Type} (db : Db S) : Prop :=
  forall s : S, snd (getOptions s) = s /\ snd (getLogs s) = s.

(** ** A concrete configuration for worked examples *)

Definition seo0 : Seo := mkSeo "https://poll.example".

Definition data0 : Data :=
  mkData "Whoops! Error connecting to the database" "Ready to set up the poll".

Definition env0 : Env := mkEnv (Some "secret").

Definition poll0 : Tally.Store := Tally.fresh ["go"; "rust"].

Definition world0 : World Tally.Store := mkWorld poll0 [].

Definition offline0 : World unit := mkWorld tt [].

Definition rawRequest (lang key : optstring) : Request :=
  mkRequest (mkQuery (Some "json")) (Some (mkBody lang key)).

Definition pageRequest (lang key : optstring) : Request :=
  mkRequest (mkQuery None) (Some (mkBody lang key)).

(** A POST sent without a body. *)
Definition bodylessRequest : Request :=
  mkRequest (mkQuery (Some "json")) None.

(** A poll on which one vote was cast. *)
Definition voted0 : World Tally.Store :=
  mkWorld (snd (Tally.recordVote "go" poll0)) [].

(** ** Code around the four routes *)

(** How a template literal prints such a value: [undefined] comes out as
    the word itself. *)
Definition interpolate (v : optstring) : string :=
  match v with
  | Some s => s
  | None => "undefined"
  end.

(** Lines 63-66: the placeholder url of seo.json is replaced by the url of
    the project, built from [process.env.PROJECT_DOMAIN]. *)
Definition loadSeo (file : Seo) (projectDomain : optstring) : Seo :=
  if url file =? "glitch-default"
  then mkSeo ("https://" ++ interpolate projectDomain ++ ".glitch.me")
  else file.

(** Lines 196-199, [fastify.get('/users/:userId', ...)]: the [message] of
    the object it sends. *)
Definition users_userId (userId : string) : string :=
  "User ID is " ++ userId.

(** The guard of lines 249-254 without its second test. *)
Definition authFailsShort (env : Env) (b : Body) : bool :=
  negb (truthy (body_key b))
  || negb (truthy (ADMIN_KEY env))
  || strictNeq (body_key b) (ADMIN_KEY env).

(** The page each route hands to [reply.view]. *)
Definition pageOf (route : Route) : string :=
  match route with
  | GET_root | POST_root => "/src/pages/index.hbs"
  | GET_logs | POST_reset => "/src/pages/admin.hbs"
  end.

(** [params] with its [seo] property removed. *)
Definition withoutSeo (p : Params) : Params :=
  mkParams None (results p) (optionNames p) (optionCounts p)
           (optionHistory p) (error p) (setup p) (failed p).

(** The helper call a request leads to, read off the four handlers: the
    route and the body decide, the storage does not.  A POST without a body
    throws before any call. *)
Definition callsOf (env : Env) (rr : Route * Request) : list DbCall :=
  match fst rr, body (snd rr) with
  | GET_root, _ => [CallGetOptions]
  | POST_root, Some b =>
      match body_language b with
      | Some vote => if truthy (Some vote) then [CallProcessVote vote] else []
      | None => []
      end
  | POST_root, None => []
  | GET_logs, _ => [CallGetLogs]
  | POST_reset, Some b =>
      if authFails env b then [CallGetLogs] else [CallClearHistory]
  | POST_reset, None => []
  end.

(** A POST /reset whose key passes the guard. *)
Definition clearingRequest (env : Env) (rr : Route * Request) : bool :=
  match fst rr, body (snd rr) with
  | POST_reset, Some b => negb (authFails env b)
  | _, _ => false
  end.

(** The votes handed to [processVote] among the given calls, in order. *)
Definition votesOf (calls : list DbCall) : list string :=
  flat_map (fun c => match c with
                     | CallProcessVote vote => [vote]
                     | _ => []
                     end) calls.

(** The non-empty [language] fields of the POST / requests, in order. *)
Definition submittedVotes (requests : list (Route * Request)) : list string :=
  flat_map (fun rr => match fst rr, languageOf (snd rr) with
                      | POST_root, Some vote =>
                          if truthy (Some vote) then [vote] else []
                      | _, _ => []
                      end) requests.

(** Two outcomes that differ at most in rendering and [seo]. *)
Definition sameButRendering (o1 o2 : Outcome) : Prop :=
  match o1, o2 with
  | Replied r1, Replied r2 =>
      status r1 = status r2 /\ withoutSeo (sent r1) = withoutSeo (sent r2)
  | Threw p1, Threw p2 => p1 = p2
  | _, _ => False
  end.

(** * Properties *)

(** ** Worked scenarios *)

Example scenario_votes :
  map Tally.choices (Tally.statesAfter ["go"; "go"; "rust"] poll0)
  = [ [mkChoice "go" 1; mkChoice "rust" 0];
      [mkChoice "go" 2; mkChoice "rust" 0];
      [mkChoice "go" 2; mkChoice "rust" 1] ].
Proof. reflexivity. Qed.

Example scenario_tally :
  let final := last (Tally.statesAfter ["go"; "go"; "rust"] poll0) poll0 in
  map picks (Tally.choices final) = [2; 1]
  /\ length (Tally.history final) = 3.
Proof. split; reflexivity. Qed.

Example scenario_reset_wrong :
  fst (runState (post_reset seo0 data0 env0 (rawRequest None (Some "wrong")))
                world0)
  = Replied (mkReply 401 (Send (set_optionHistory (Rows [])
                                  (set_failed invalidCredentials
                                     emptyParams)))).
Proof. reflexivity. Qed.

Example scenario_reset_case_sensitive :
  fst (runState (post_reset seo0 data0 env0 (rawRequest None (Some "Secret")))
                voted0)
  = Replied (mkReply 401
               (Send (set_optionHistory (Rows [mkLogEntry "go" 0])
                        (set_failed invalidCredentials emptyParams)))).
Proof. reflexivity. Qed.

Example scenario_reset_without_configured_key :
  refused (mkEnv None) POST_reset (rawRequest None None) = true
  /\ refused (mkEnv (Some "")) POST_reset (rawRequest None (Some "")) = true.
Proof. split; reflexivity. Qed.

Example scenario_empty_vote :
  runState (post_root seo0 data0 (rawRequest (Some "") None)) world0
  = (Replied (mkReply 200 (Send (set_error (Val (errorMessage data0))
                                   (set_results true emptyParams)))),
     world0).
Proof. reflexivity. Qed.

Example scenario_setup_page :
  sent (fst (runState (get_root seo0 data0 (rawRequest None None))
                      (mkWorld (Tally.fresh []) [])))
  = set_setup (setupMessage data0)
      (set_optionCounts [] (set_optionNames [] emptyParams)).
Proof. reflexivity. Qed.

Example scenario_post_without_body :
  runState (post_root seo0 data0 bodylessRequest) voted0
  = (Threw "language", voted0)
  /\ runState (post_reset seo0 data0 env0 bodylessRequest) voted0
     = (Threw "key", voted0).
Proof. split; reflexivity. Qed.

(** ** Running a handler *)

Section Running.

Context {S : Type} {db : Db S}.
Variable seoData : Seo.
Variable data : Data.
Variable env : Env.

Lemma run_await {A : Type} (c : DbCall) (f : S -> DbResult A * S)
      (w : World S) :
  runState (await c f) w
  = (fst (f (store w)),
     mkWorld (snd (f (store w)))
             (journal w ++ [mkEvent c (ok (fst (f (store w))))])).
Proof.
  unfold await. cbn. destruct (f (store w)) as [r s]. reflexivity.
Qed.

Lemma newCalls_app (w : World S) (s : S) (added : list Event) :
  newCalls w (mkWorld s (journal w ++ added)) = added.
Proof.
  unfold newCalls. cbn.
  rewrite skipn_app, skipn_all, Nat.sub_diag. reflexivity.
Qed.

Lemma newCalls_same (w : World S) : newCalls w w = [].
Proof. unfold newCalls. apply skipn_all. Qed.

Lemma sent_respond (request : Request) (code : nat) (page : string)
      (params : Params) :
  sent (respond request code page params) = params.
Proof. unfold respond. destruct (truthy _); reflexivity. Qed.

Lemma status_respond (request : Request) (code : nat) (page : string)
      (params : Params) :
  status (respond request code page params) = code.
Proof. unfold respond. destruct (truthy _); reflexivity. Qed.

Lemma failed_initParams (request : Request) :
  failed (initParams seoData request) = None.
Proof. unfold initParams. destruct (truthy _); reflexivity. Qed.

Lemma error_initParams (request : Request) :
  error (initParams seoData request) = Unset.
Proof. unfold initParams. destruct (truthy _); reflexivity. Qed.

Lemma truthy_false (v : optstring) :
  truthy v = false <-> v = None \/ v = Some "".
Proof.
  destruct v as [s|]; cbn.
  - destruct (String.eqb_spec s "") as [->|Hne]; cbn.
    + split; [intros _; right; reflexivity | reflexivity].
    + split; [discriminate|].
      intros [H|H]; [discriminate|]. injection H as ->. contradiction.
  - split; [intros _; left; reflexivity | reflexivity].
Qed.

Lemma truthy_nonempty (s : string) : s <> "" -> truthy (Some s) = true.
Proof.
  intros Hne. cbn. destruct (String.eqb_spec s ""); [contradiction|].
  reflexivity.
Qed.

(** GET /, whatever [getOptions] returns. *)
Lemma run_get_root (request : Request) (w : World S) :
  runState (get_root seoData data request) w
  = (respond request 200 "/src/pages/index.hbs"
       (rootParams seoData data request (fst (getOptions (store w)))),
     mkWorld (snd (getOptions (store w)))
             (journal w
              ++ [mkEvent CallGetOptions (ok (fst (getOptions (store w))))])).
Proof.
  unfold get_root. cbn.
  destruct (getOptions (store w)) as [options s]. cbn.
  destruct options as [|rows]; [reflexivity|].
  destruct rows; reflexivity.
Qed.

(** POST / without a body: line 124 throws, before any helper call. *)
Lemma run_post_root_thrown (request : Request) (w : World S) :
  body request = None ->
  runState (post_root seoData data request) w = (Threw "language", w).
Proof.
  intros Hbody. unfold post_root. rewrite Hbody. destruct w. reflexivity.
Qed.

(** POST / without a vote: lines 125-130 are skipped. *)
Lemma run_post_root_skipped (request : Request) (b : Body) (w : World S) :
  body request = Some b ->
  truthy (body_language b) = false ->
  runState (post_root seoData data request) w
  = (Replied
       (respond request 200 "/src/pages/index.hbs"
          (set_error (Val (errorMessage data))
             (set_results true (initParams seoData request)))),
     w).
Proof.
  intros Hbody Hfalsy. unfold post_root. rewrite Hbody.
  destruct (body_language b) as [vote|].
  - rewrite Hfalsy. cbn. destruct w. reflexivity.
  - cbn. destruct w. reflexivity.
Qed.

(** POST / with a vote: lines 125-130 run. *)
Lemma run_post_root_voted (request : Request) (b : Body) (vote : string)
      (w : World S) :
  body request = Some b ->
  body_language b = Some vote ->
  vote <> "" ->
  runState (post_root seoData data request) w
  = (Replied
       (respond request 200 "/src/pages/index.hbs"
          (votedParams seoData data request
             (fst (processVote vote (store w))))),
     mkWorld (snd (processVote vote (store w)))
             (journal w
              ++ [mkEvent (CallProcessVote vote)
                          (ok (fst (processVote vote (store w))))])).
Proof.
  intros Hbody Hvote Hnonempty. unfold post_root.
  rewrite Hbody, Hvote, (truthy_nonempty vote Hnonempty). cbn.
  destruct (processVote vote (store w)) as [options s]. cbn.
  destruct options; reflexivity.
Qed.

(** GET /logs, whatever [getLogs] returns. *)
Lemma run_get_logs (request : Request) (w : World S) :
  runState (get_logs seoData data request) w
  = (respond request 200 "/src/pages/admin.hbs"
       (set_error
          (if ok (fst (getLogs (store w))) then Null
           else Val (errorMessage data))
          (set_optionHistory (fst (getLogs (store w)))
             (initParams seoData request))),
     mkWorld (snd (getLogs (store w)))
             (journal w
              ++ [mkEvent CallGetLogs (ok (fst (getLogs (store w))))])).
Proof.
  unfold get_logs. cbn.
  destruct (getLogs (store w)) as [logs s]. cbn.
  unfold initParams. destruct (truthy (raw (query request)));
    destruct logs; reflexivity.
Qed.

(** POST /reset without a body: line 250 throws, before any helper call. *)
Lemma run_post_reset_thrown (request : Request) (w : World S) :
  body request = None ->
  runState (post_reset seoData data env request) w = (Threw "key", w).
Proof.
  intros Hbody. unfold post_reset. rewrite Hbody. destruct w. reflexivity.
Qed.

(** The failing branch of POST /reset, lines 255-261 and 271-275. *)
Lemma run_post_reset_denied (request : Request) (b : Body) (w : World S) :
  body request = Some b ->
  authFails env b = true ->
  runState (post_reset seoData data env request) w
  = (Replied
       (respond request 401 "/src/pages/admin.hbs"
          (set_optionHistory (fst (getLogs (store w)))
             (set_failed invalidCredentials (initParams seoData request)))),
     mkWorld (snd (getLogs (store w)))
             (journal w
              ++ [mkEvent CallGetLogs (ok (fst (getLogs (store w))))])).
Proof.
  intros Hbody Hfail. unfold post_reset. rewrite Hbody, Hfail. cbn.
  destruct (getLogs (store w)) as [logs s]. reflexivity.
Qed.

(** The clearing branch of POST /reset, lines 262-275. *)
Lemma run_post_reset_granted (request : Request) (b : Body) (w : World S) :
  body request = Some b ->
  authFails env b = false ->
  runState (post_reset seoData data env request) w
  = (Replied
       (respond request 200 "/src/pages/admin.hbs"
          (set_error
             (if ok (fst (clearHistory (store w))) then Null
              else Val (errorMessage data))
             (set_optionHistory (fst (clearHistory (store w)))
                (initParams seoData request)))),
     mkWorld (snd (clearHistory (store w)))
             (journal w
              ++ [mkEvent CallClearHistory
                          (ok (fst (clearHistory (store w))))])).
Proof.
  intros Hbody Hpass. unfold post_reset. rewrite Hbody, Hpass. cbn.
  destruct (clearHistory (store w)) as [logs s]. cbn.
  unfold initParams. destruct (truthy (raw (query request)));
    destruct logs; reflexivity.
Qed.

(** The two routes that do not read the body always reply. *)
Lemma run_handle_get_root (request : Request) (w : World S) :
  runState (handle seoData data env GET_root request) w
  = (Replied (fst (runState (get_root seoData data request) w)),
     snd (runState (get_root seoData data request) w)).
Proof.
  unfold handle. cbn.
  destruct (getOptions (store w)) as [options s]. reflexivity.
Qed.

Lemma run_handle_get_logs (request : Request) (w : World S) :
  runState (handle seoData data env GET_logs request) w
  = (Replied (fst (runState (get_logs seoData data request) w)),
     snd (runState (get_logs seoData data request) w)).
Proof.
  unfold handle. cbn.
  destruct (getLogs (store w)) as [logs s]. reflexivity.
Qed.

(** The guard of the handler is the negation of the spec's rule. *)
Lemma authFails_credentialsMatch (b : Body) :
  authFails env b = negb (credentialsMatch (body_key b) (ADMIN_KEY env)).
Proof.
  unfold authFails, credentialsMatch, truthy, strictNeq.
  destruct (body_key b) as [k|]; [|reflexivity].
  destruct k as [|c k].
  - destruct (ADMIN_KEY env); reflexivity.
  - destruct (ADMIN_KEY env) as [a|]; [|reflexivity].
    destruct a as [|d a]; reflexivity.
Qed.

End Running.

Ltac unfold_post_routes :=
  repeat match goal with
         | |- context [@handle ?S ?db ?s ?d ?e POST_root ?r] =>
             change (@handle S db s d e POST_root r)
               with (@post_root S db s d r)
         | |- context [@handle ?S ?db ?s ?d ?e POST_reset ?r] =>
             change (@handle S db s d e POST_reset r)
               with (@post_reset S db s d e r)
         end.

Ltac run_route seoData data env request w :=
  unfold_post_routes;
  lazymatch goal with
  | |- context [@handle _ _ _ _ _ GET_root _] =>
      rewrite !run_handle_get_root, !run_get_root
  | |- context [@handle _ _ _ _ _ GET_logs _] =>
      rewrite !run_handle_get_logs, !run_get_logs
  | |- context [@post_root _ _ _ _ _] =>
      let b := fresh "b" in
      let vote := fresh "vote" in
      let Hbody := fresh "Hbody" in
      let Hlang := fresh "Hlang" in
      let Hvote := fresh "Hvote" in
      let Hne := fresh "Hne" in
      destruct (body request) as [b|] eqn:Hbody;
      [ destruct (body_language b) as [vote|] eqn:Hlang;
        [ destruct (truthy (Some vote)) eqn:Hvote;
          [ assert (Hne : vote <> "") by (intros ->; discriminate);
            rewrite !(run_post_root_voted seoData data request b vote w)
              by assumption
          | rewrite !(run_post_root_skipped seoData data request b w)
              by (exact Hbody || (rewrite Hlang; exact Hvote)) ]
        | rewrite !(run_post_root_skipped seoData data request b w)
            by (exact Hbody || (rewrite Hlang; reflexivity)) ]
      | rewrite !(run_post_root_thrown seoData data request w)
          by exact Hbody ]
  | |- context [@post_reset _ _ _ _ _ _] =>
      let b := fresh "b" in
      let Hbody := fresh "Hbody" in
      let Hguard := fresh "Hguard" in
      destruct (body request) as [b|] eqn:Hbody;
      [ destruct (authFails env b) eqn:Hguard;
        [ rewrite !(run_post_reset_denied seoData data env request b w)
            by assumption
        | rewrite !(run_post_reset_granted seoData data env request b w)
            by assumption ]
      | rewrite !(run_post_reset_thrown seoData data env request w)
          by exact Hbody ]
  end.

(** ** POST /reset *)

Lemma credentialsMatch_spec (providedKey configuredKey : optstring) :
  credentialsMatch providedKey configuredKey = true
  <-> exists k, k <> "" /\ providedKey = Some k /\ configuredKey = Some k.
Proof.
  unfold credentialsMatch. split.
  - destruct providedKey as [p|], configuredKey as [c|]; try discriminate.
    intros H. apply andb_prop in H as [H Heq].
    apply andb_prop in H as [Hp _].
    apply String.eqb_eq in Heq. subst c.
    exists p. repeat split.
    intros ->. discriminate.
  - intros (k & Hk & -> & ->).
    rewrite String.eqb_refl.
    destruct (String.eqb_spec k "") as [->|_]; [contradiction|reflexivity].
Qed.

Lemma denied_guard (env : Env) (b : Body) :
  credentialsMatch (body_key b) (ADMIN_KEY env) = false ->
  authFails env b = true.
Proof.
  intros Hdenied. rewrite authFails_credentialsMatch, Hdenied. reflexivity.
Qed.

Lemma granted_guard (env : Env) (b : Body) :
  credentialsMatch (body_key b) (ADMIN_KEY env) = true ->
  authFails env b = false.
Proof.
  intros Hgranted. rewrite authFails_credentialsMatch, Hgranted. reflexivity.
Qed.

(** C2.  The code at the failing input: a POST /reset sent without a body
    provides no key, so the spec's rule refuses it, but the handler sends
    no reply at all, neither the 401 nor any other: reading
    [request.body.key] throws. *)
Theorem post_reset_without_body_is_not_answered :
  forall (S : Type) (db : Db S) (seoData : Seo) (data : Data) (env : Env)
         (q : Query) (w : World S),
    let request := mkRequest q None in
    let run := runState (post_reset seoData data env request) w in
    credentialsMatch (keyOf request) (ADMIN_KEY env) = false
    /\ fst run = Threw "key"
    /\ (forall reply, fst run <> Replied reply).
Proof.
  intros S db seoData data env q w request run. subst run request.
  rewrite run_post_reset_thrown by reflexivity. cbn.
  repeat split. intros reply. discriminate.
Qed.

(** C3.  The code at the failing input: a POST /reset sent without a body
    fails authorization by the spec's rule and indeed changes nothing, but
    the handler never calls [getLogs] and sends no reply that could carry
    the history or the failure flag. *)
Theorem post_reset_without_body_sends_no_history :
  forall (S : Type) (db : Db S) (seoData : Seo) (data : Data) (env : Env)
         (q : Query) (w : World S),
    let request := mkRequest q None in
    let run := runState (post_reset seoData data env request) w in
    credentialsMatch (keyOf request) (ADMIN_KEY env) = false
    /\ snd run = w
    /\ newCalls w (snd run) = []
    /\ ~ (exists reply,
             fst run = Replied reply
             /\ failed (sent reply) = Some invalidCredentials
             /\ optionHistory (sent reply) = Some (fst (getLogs (store w)))).
Proof.
  intros S db seoData data env q w request run. subst run request.
  rewrite run_post_reset_thrown by reflexivity. cbn [fst snd].
  rewrite newCalls_same. repeat split.
  intros (reply & Hreply & _). discriminate Hreply.
Qed.

(** C10.  A POST /reset request that fails authorization leaves the
    [error] property of the reply unassigned, whatever [getLogs] returned,
    a falsy result included: only the clearing branch writes [error].  The
    handler replies unless the request has no body, and then it sends
    nothing. *)
Theorem post_reset_denied_no_error_field :
  forall (S : Type) (db : Db S) (seoData : Seo) (data : Data) (env : Env)
         (request : Request) (w : World S),
    credentialsMatch (keyOf request) (ADMIN_KEY env) = false ->
    match fst (runState (post_reset seoData data env request) w) with
    | Replied reply =>
        error (sent reply) = Unset
        /\ optionHistory (sent reply) = Some (fst (getLogs (store w)))
    | Threw _ => body request = None
    end.
Proof.
  intros S db seoData data env request w Hdenied.
  unfold keyOf in Hdenied.
  destruct (body request) as [b|] eqn:Hbody.
  - apply denied_guard in Hdenied.
    rewrite (run_post_reset_denied seoData data env request b w Hbody Hdenied).
    cbn [fst]. rewrite sent_respond. cbn. rewrite error_initParams.
    split; reflexivity.
  - rewrite (run_post_reset_thrown seoData data env request w Hbody).
    reflexivity.
Qed.

Lemma post_reset_denied_no_error_field_witness :
  match fst (runState
               (post_reset seo0 data0 env0 (rawRequest None (Some "wrong")))
               offline0) with
  | Replied reply =>
      error (sent reply) = Unset
      /\ optionHistory (sent reply) = Some (fst (getLogs (store offline0)))
  | Threw _ => body (rawRequest None (Some "wrong")) = None
  end.
Proof.
  exact (post_reset_denied_no_error_field unit OfflineDb seo0 data0 env0
           (rawRequest None (Some "wrong")) offline0 eq_refl).
Defined.

Lemma totalPicks_zeroed (cs : list Choice) :
  list_sum (map picks (map Tally.zeroed cs)) = 0.
Proof. induction cs as [|c cs IH]; cbn; [reflexivity|exact IH]. Qed.

Lemma names_zeroed (cs : list Choice) :
  map language (map Tally.zeroed cs) = map language cs.
Proof. rewrite map_map. reflexivity. Qed.

(** C4.  On the storage of the spec, a POST /reset request whose key is
    non-empty and equal to the non-empty configured ADMIN_KEY calls
    [clearHistory] and nothing else; afterwards the history is empty and
    every pick count is zero (the Options themselves stay), the status is
    200, no failure flag or error is set, and [optionHistory] of the reply
    is the empty history that the clear operation returned. *)
Theorem post_reset_granted_clears :
  forall (seoData : Seo) (data : Data) (env : Env) (request : Request)
         (w : World Tally.Store),
    credentialsMatch (keyOf request) (ADMIN_KEY env) = true ->
    let run := runState (post_reset seoData data env request) w in
    let w' := snd run in
    exists reply,
      fst run = Replied reply
      /\ Tally.history (store w') = []
      /\ Forall (fun c => picks c = 0) (Tally.choices (store w'))
      /\ Tally.totalPicks (store w') = 0
      /\ Tally.names (store w') = Tally.names (store w)
      /\ status reply = 200
      /\ optionHistory (sent reply) = Some (fst (clearHistory (store w)))
      /\ optionHistory (sent reply) = Some (Rows (Tally.history (store w')))
      /\ failed (sent reply) = None
      /\ error (sent reply) = Null
      /\ newCalls w w' = [mkEvent CallClearHistory true].
Proof.
  intros seoData data env request w Hgranted run w'. subst w' run.
  unfold keyOf in Hgranted.
  destruct (body request) as [b|] eqn:Hbody; [|discriminate Hgranted].
  apply granted_guard in Hgranted.
  rewrite (run_post_reset_granted seoData data env request b w Hbody Hgranted).
  cbn [fst snd]. eexists. split; [reflexivity|].
  rewrite newCalls_app, sent_respond, status_respond. cbn.
  rewrite failed_initParams.
  repeat split.
  - apply Forall_forall. intros c Hin.
    apply in_map_iff in Hin as (c0 & <- & _). reflexivity.
  - apply totalPicks_zeroed.
  - apply names_zeroed.
Qed.

Lemma post_reset_granted_clears_witness :
  let run :=
    runState (post_reset seo0 data0 env0 (rawRequest None (Some "secret")))
             voted0 in
  exists reply,
    fst run = Replied reply
    /\ Tally.history (store (snd run)) = []
    /\ Forall (fun c => picks c = 0) (Tally.choices (store (snd run)))
    /\ Tally.totalPicks (store (snd run)) = 0
    /\ Tally.names (store (snd run)) = Tally.names (store voted0)
    /\ status reply = 200
    /\ optionHistory (sent reply) = Some (fst (clearHistory (store voted0)))
    /\ optionHistory (sent reply)
       = Some (Rows (Tally.history (store (snd run))))
    /\ failed (sent reply) = None
    /\ error (sent reply) = Null
    /\ newCalls voted0 (snd run) = [mkEvent CallClearHistory true].
Proof.
  exact (post_reset_granted_clears seo0 data0 env0
           (rawRequest None (Some "secret")) voted0 eq_refl).
Defined.

(** ** GET /, POST / and GET /logs *)

(** C5.  A POST / request whose [language] field is empty or missing
    leaves the world as it was: the journal gets no line, so [processVote]
    is not invoked, and the storage, hence every pick count, is the one the
    request found.  That also holds when the whole body is missing. *)
Theorem post_root_empty_vote_records_nothing :
  forall (S : Type) (db : Db S) (seoData : Seo) (data : Data)
         (request : Request) (w : World S),
    languageOf request = None \/ languageOf request = Some "" ->
    let w' := snd (runState (post_root seoData data request) w) in
    w' = w
    /\ newCalls w w' = []
    /\ (forall vote, ~ In (CallProcessVote vote) (map called (newCalls w w')))
    /\ getOptions (store w') = getOptions (store w).
Proof.
  intros S db seoData data request w Hempty w'.
  apply truthy_false in Hempty. unfold languageOf in Hempty.
  assert (Hsame : w' = w).
  { subst w'. destruct (body request) as [b|] eqn:Hbody.
    - rewrite (run_post_root_skipped seoData data request b w Hbody Hempty).
      reflexivity.
    - rewrite (run_post_root_thrown seoData data request w Hbody).
      reflexivity. }
  rewrite Hsame, newCalls_same.
  repeat split. intros vote [].
Qed.

Lemma post_root_empty_vote_records_nothing_witness :
  let w' :=
    snd (runState (post_root seo0 data0 (rawRequest (Some "") None)) voted0) in
  w' = voted0
  /\ newCalls voted0 w' = []
  /\ (forall vote,
         ~ In (CallProcessVote vote) (map called (newCalls voted0 w')))
  /\ getOptions (store w') = getOptions (store voted0).
Proof.
  exact (post_root_empty_vote_records_nothing Tally.Store TallyDb seo0 data0
           (rawRequest (Some "") None) voted0 (or_intror eq_refl)).
Defined.

(** C6 as stated fails: the reply to a POST / with an empty vote, on a
    storage that answers every query, holds the generic error message. *)
Lemma post_root_empty_vote_reports_error :
  ~ emptyVoteUnreported seo0 data0 (rawRequest (Some "") None) world0.
Proof.
  unfold emptyVoteUnreported. intros Hclaim.
  specialize (Hclaim eq_refl _ eq_refl). discriminate Hclaim.
Qed.

(** C6, amended.  A POST / request whose body is there and whose vote is
    empty or missing is answered like any other: no helper call is made,
    the world is unchanged, and the usual reply goes out with the default
    status and the results flag, without option arrays.  Its [error]
    property, however, is set to the generic error message. *)
Theorem post_root_empty_vote_reply :
  forall (S : Type) (db : Db S) (seoData : Seo) (data : Data)
         (request : Request) (b : Body) (w : World S),
    body request = Some b ->
    body_language b = None \/ body_language b = Some "" ->
    let run := runState (post_root seoData data request) w in
    exists reply,
      fst run = Replied reply
      /\ snd run = w
      /\ status reply = 200
      /\ results (sent reply) = Some true
      /\ optionNames (sent reply) = None
      /\ optionCounts (sent reply) = None
      /\ error (sent reply) = Val (errorMessage data).
Proof.
  intros S db seoData data request b w Hbody Hempty run.
  apply truthy_false in Hempty.
  subst run.
  rewrite (run_post_root_skipped seoData data request b w Hbody Hempty).
  cbn [fst snd]. eexists. split; [reflexivity|].
  rewrite sent_respond, status_respond.
  unfold initParams. destruct (truthy (raw (query request)));
    repeat split.
Qed.

Lemma post_root_empty_vote_reply_witness :
  let run := runState (post_root seo0 data0 (pageRequest None None)) voted0 in
  exists reply,
    fst run = Replied reply
    /\ snd run = voted0
    /\ status reply = 200
    /\ results (sent reply) = Some true
    /\ optionNames (sent reply) = None
    /\ optionCounts (sent reply) = None
    /\ error (sent reply) = Val (errorMessage data0).
Proof.
  exact (post_root_empty_vote_reply Tally.Store TallyDb seo0 data0
           (pageRequest None None) (mkBody None None) voted0
           eq_refl (or_introl eq_refl)).
Defined.

(** C7 as stated fails: a POST / with an empty vote makes no helper call,
    so none came back falsy, and the reply still holds the generic error
    message. *)
Lemma empty_vote_error_without_storage_failure :
  ~ errorFollowsStorage seo0 data0 env0 POST_root (rawRequest (Some "") None)
      world0.
Proof.
  unfold errorFollowsStorage. intros Hclaim.
  destruct (Hclaim _ eq_refl) as [_ Hquiet].
  specialize (Hquiet eq_refl). discriminate Hquiet.
Qed.

(** C7, amended.  For every GET / and GET /logs request, and every POST /
    request that has a body, the [error] property is the generic error
    message, and nothing else, when the helper call of the handler came
    back falsy or when the request is a POST / without a vote, for which no
    helper call is made.  Otherwise no error is reported: GET / leaves
    [error] unassigned, POST / and GET /logs set it to [null]. *)
Theorem poll_routes_error_field :
  forall (S : Type) (db : Db S) (seoData : Seo) (data : Data) (env : Env)
         (route : Route) (request : Request) (w : World S),
    route <> POST_reset ->
    bodyMissing route request = false ->
    let run := runState (handle seoData data env route request) w in
    exists reply,
      fst run = Replied reply
      /\ error (sent reply)
         = if storageFailed (newCalls w (snd run))
              || voteMissing route request
           then Val (errorMessage data)
           else match route with
                | GET_root => Unset
                | _ => Null
                end.
Proof.
  intros S db seoData data env route request w Hroute Hpresent run.
  subst run.
  destruct route; [| | |contradiction].
  - run_route seoData data env request w. cbn [fst snd voteMissing].
    eexists. split; [reflexivity|].
    rewrite newCalls_app, sent_respond, orb_false_r. cbn.
    destruct (fst (getOptions (store w))) as [|rows]; cbn.
    + reflexivity.
    + destruct rows; cbn; apply error_initParams.
  - run_route seoData data env request w; cbn [fst snd].
    + assert (Hl : languageOf request = Some vote).
      { unfold languageOf. rewrite Hbody. exact Hlang. }
      eexists. split; [reflexivity|].
      unfold voteMissing. rewrite Hl, Hvote.
      rewrite newCalls_app, sent_respond, orb_false_r. cbn.
      destruct (fst (processVote vote (store w))); reflexivity.
    + assert (Hl : languageOf request = Some vote).
      { unfold languageOf. rewrite Hbody. exact Hlang. }
      eexists. split; [reflexivity|].
      unfold voteMissing. rewrite Hl, Hvote.
      rewrite newCalls_same, sent_respond. reflexivity.
    + assert (Hl : languageOf request = None).
      { unfold languageOf. rewrite Hbody. exact Hlang. }
      eexists. split; [reflexivity|].
      unfold voteMissing. rewrite Hl.
      rewrite newCalls_same, sent_respond. reflexivity.
    + unfold bodyMissing in Hpresent. rewrite Hbody in Hpresent.
      discriminate Hpresent.
  - run_route seoData data env request w. cbn [fst snd voteMissing].
    eexists. split; [reflexivity|].
    rewrite newCalls_app, sent_respond, orb_false_r. cbn.
    destruct (fst (getLogs (store w))); reflexivity.
Qed.

Lemma poll_routes_error_field_witness :
  let request := rawRequest (Some "go") None in
  let run := runState (handle seo0 data0 env0 POST_root request) offline0 in
  exists reply,
    fst run = Replied reply
    /\ error (sent reply)
       = if storageFailed (newCalls offline0 (snd run))
            || voteMissing POST_root request
         then Val (errorMessage data0)
         else Null.
Proof.
  refine (poll_routes_error_field unit OfflineDb seo0 data0 env0 POST_root
            (rawRequest (Some "go") None) offline0 _ eq_refl).
  discriminate.
Defined.

(** C8.  When [getOptions] returns a list of rows, GET / calls the helper
    once, through that reading function, and [optionNames] and
    [optionCounts] of the reply are the [language] and [picks] columns of
    the list in storage order: both have the length of the list, and
    position [i] of each is taken from row [i]. *)
Theorem get_root_projects_options :
  forall (S : Type) (db : Db S) (seoData : Seo) (data : Data)
         (request : Request) (w : World S) (rows : list Choice),
    fst (getOptions (store w)) = Rows rows ->
    let reply := fst (runState (get_root seoData data request) w) in
    let w' := snd (runState (get_root seoData data request) w) in
    map called (newCalls w w') = [CallGetOptions]
    /\ forallb (fun e => negb (mutating (called e))) (newCalls w w') = true
    /\ optionNames (sent reply) = Some (map language rows)
    /\ optionCounts (sent reply) = Some (map picks rows)
    /\ length (map language rows) = length rows
    /\ length (map picks rows) = length rows
    /\ (forall i c,
           nth_error rows i = Some c ->
           nth_error (map language rows) i = Some (language c)
           /\ nth_error (map picks rows) i = Some (picks c)).
Proof.
  intros S db seoData data request w rows Hrows reply w'.
  subst reply w'. rewrite run_get_root. cbn [fst snd].
  rewrite newCalls_app, sent_respond, Hrows. cbn.
  split; [reflexivity|]. split; [reflexivity|].
  split; [destruct rows; reflexivity|].
  split; [destruct rows; reflexivity|].
  split; [apply length_map|]. split; [apply length_map|].
  intros i c Hrow. split; apply map_nth_error; exact Hrow.
Qed.

Lemma get_root_projects_options_witness :
  let w := mkWorld (snd (Tally.recordVote "rust" poll0)) [] in
  let rows := [mkChoice "go" 0; mkChoice "rust" 1] in
  let run := runState (get_root seo0 data0 (rawRequest None None)) w in
  map called (newCalls w (snd run)) = [CallGetOptions]
  /\ forallb (fun e => negb (mutating (called e))) (newCalls w (snd run))
     = true
  /\ optionNames (sent (fst run)) = Some (map language rows)
  /\ optionCounts (sent (fst run)) = Some (map picks rows)
  /\ length (map language rows) = length rows
  /\ length (map picks rows) = length rows
  /\ (forall i c,
         nth_error rows i = Some c ->
         nth_error (map language rows) i = Some (language c)
         /\ nth_error (map picks rows) i = Some (picks c)).
Proof.
  exact (get_root_projects_options Tally.Store TallyDb seo0 data0
           (rawRequest None None)
           (mkWorld (snd (Tally.recordVote "rust" poll0)) [])
           [mkChoice "go" 0; mkChoice "rust" 1] eq_refl).
Defined.

Section ReadingRoutes.

Context {S : Type} {db : Db S}.
Variable seoData : Seo.
Variable data : Data.
Variable env : Env.
Hypothesis reads_only : readOnly db.

Lemma reading_keeps_store (route : Route) (request : Request)
      (w : World S) :
  reading route = true ->
  store (snd (runState (handle seoData data env route request) w))
  = store w.
Proof.
  destruct route; cbn [reading]; try discriminate; intros _.
  - rewrite run_handle_get_root, run_get_root. cbn.
    apply (reads_only (store w)).
  - rewrite run_handle_get_logs, run_get_logs. cbn.
    apply (reads_only (store w)).
Qed.

Lemma serve_reading_keeps_store (requests : list (Route * Request)) :
  forallb (fun rr => reading (fst rr)) requests = true ->
  forall w : World S,
    store (snd (serve seoData data env requests w)) = store w.
Proof.
  induction requests as [|[route request] rest IH]; intros Hall w.
  - reflexivity.
  - cbn in Hall. apply andb_prop in Hall as [Hroute Hrest].
    cbn [serve].
    pose proof (reading_keeps_store route request w Hroute) as Hstep.
    destruct (runState (handle seoData data env route request) w)
      as [outcome w1].
    pose proof (IH Hrest w1) as Htail.
    destruct (serve seoData data env rest w1) as [outcomes w2].
    cbn [snd] in *. congruence.
Qed.

End ReadingRoutes.

Lemma TallyDb_readOnly : readOnly TallyDb.
Proof. intros s. split; reflexivity. Qed.

(** C9.  Over an adapter whose reading functions have no side effects, two
    GET / requests with no vote and no reset between them (any number of
    GET / and GET /logs requests may come between) get the same
    [optionCounts], and the same [optionNames]. *)
Theorem get_root_twice_same_counts :
  forall (S : Type) (db : Db S) (seoData : Seo) (data : Data) (env : Env)
         (first second : Request) (between : list (Route * Request))
         (w : World S),
    readOnly db ->
    forallb (fun rr => reading (fst rr)) between = true ->
    let run1 := runState (get_root seoData data first) w in
    let w2 := snd (serve seoData data env between (snd run1)) in
    let run2 := runState (get_root seoData data second) w2 in
    optionCounts (sent (fst run1)) = optionCounts (sent (fst run2))
    /\ optionNames (sent (fst run1)) = optionNames (sent (fst run2))
    /\ store (snd run2) = store w.
Proof.
  intros S db seoData data env first second between w Hro Hbetween
         run1 w2 run2.
  assert (Hw2 : store w2 = store w).
  { subst w2.
    rewrite (serve_reading_keeps_store seoData data env Hro between Hbetween).
    subst run1. rewrite run_get_root. cbn. apply (Hro (store w)). }
  subst run1 run2. rewrite !run_get_root. cbn [fst snd].
  rewrite !sent_respond, Hw2. cbn [store].
  split; [|split].
  - unfold rootParams, initParams.
    destruct (fst (getOptions (store w))) as [|[|c rows]];
      destruct (truthy (raw (query first)));
      destruct (truthy (raw (query second))); reflexivity.
  - unfold rootParams, initParams.
    destruct (fst (getOptions (store w))) as [|[|c rows]];
      destruct (truthy (raw (query first)));
      destruct (truthy (raw (query second))); reflexivity.
  - apply (Hro (store w)).
Qed.

Lemma get_root_twice_same_counts_witness :
  let w := mkWorld (snd (Tally.recordVote "go" poll0)) [] in
  let first := rawRequest None None in
  let second := pageRequest None None in
  let between := [(GET_logs, first); (GET_root, second)] in
  let run1 := runState (get_root seo0 data0 first) w in
  let w2 := snd (serve seo0 data0 env0 between (snd run1)) in
  let run2 := runState (get_root seo0 data0 second) w2 in
  optionCounts (sent (fst run1)) = optionCounts (sent (fst run2))
  /\ optionNames (sent (fst run1)) = optionNames (sent (fst run2))
  /\ store (snd run2) = store w.
Proof.
  exact (get_root_twice_same_counts Tally.Store TallyDb seo0 data0 env0
           (rawRequest None None) (pageRequest None None)
           [(GET_logs, rawRequest None None);
            (GET_root, pageRequest None None)]
           (mkWorld (snd (Tally.recordVote "go" poll0)) [])
           TallyDb_readOnly eq_refl).
Defined.

(** ** The tally and the log *)

Module TallyFacts.
Import Tally.

Lemma known_In (name : string) (s : Store) :
  known name s = true <-> In name (names s).
Proof.
  unfold known, names. rewrite existsb_exists, in_map_iff.
  split; intros (c & H1 & H2).
  - exists c. apply String.eqb_eq in H2. split; assumption.
  - exists c. split; [assumption|]. apply String.eqb_eq. assumption.
Qed.

Lemma names_increment (name : string) (cs : list Choice) :
  map language (map (increment name) cs) = map language cs.
Proof.
  rewrite map_map. apply map_ext. intros c. unfold increment.
  destruct (language c =? name); reflexivity.
Qed.

Lemma increment_absent (name : string) (cs : list Choice) :
  ~ In name (map language cs) -> map (increment name) cs = cs.
Proof.
  induction cs as [|c cs IH]; cbn; intros Hout; [reflexivity|].
  unfold increment at 1.
  destruct (String.eqb_spec (language c) name) as [Heq|_].
  - exfalso. apply Hout. left. exact Heq.
  - f_equal. apply IH. intros Hin. apply Hout. right. exact Hin.
Qed.

(** With unique names a vote for a listed Option adds exactly one pick. *)
Lemma picks_increment (name : string) (cs : list Choice) :
  NoDup (map language cs) ->
  In name (map language cs) ->
  list_sum (map picks (map (increment name) cs))
  = 1 + list_sum (map picks cs).
Proof.
  induction cs as [|c cs IH]; cbn; intros Hnodup Hin; [contradiction|].
  apply NoDup_cons_iff in Hnodup as [Hfresh Hnodup].
  unfold increment at 1.
  destruct (String.eqb_spec (language c) name) as [Heq|Hne].
  - subst name. rewrite increment_absent by exact Hfresh. reflexivity.
  - destruct Hin as [Heq|Hin]; [contradiction|].
    specialize (IH Hnodup Hin). unfold list_sum in IH. lia.
Qed.

Lemma recordVote_names (name : string) (s : Store) :
  names (snd (recordVote name s)) = names s.
Proof.
  unfold recordVote. cbn. destruct (known name s); [|reflexivity].
  apply names_increment.
Qed.

Lemma recordVote_consistent (name : string) (s : Store) :
  NoDup (names s) -> consistent s -> consistent (snd (recordVote name s)).
Proof.
  unfold consistent, totalPicks. intros Hnodup Hsum.
  unfold recordVote. cbn.
  destruct (known name s) eqn:Hknown; [|exact Hsum].
  apply known_In in Hknown. cbn.
  rewrite picks_increment by assumption. rewrite length_app, Hsum.
  cbn. lia.
Qed.

Lemma clearAll_consistent (s : Store) : consistent (snd (clearAll s)).
Proof. unfold consistent, totalPicks. cbn. apply totalPicks_zeroed. Qed.

End TallyFacts.

(** C1.  On the storage of the spec, whose Options have unique names, a
    storage in which the pick counts add up to the length of the history
    keeps that property after each vote of every sequence of votes, whether
    or not a vote names a listed Option. *)
Theorem votes_keep_tally_and_log_together :
  forall (votes : list string) (s : Tally.Store),
    NoDup (Tally.names s) ->
    Tally.consistent s ->
    Forall (fun s' => Tally.totalPicks s' = length (Tally.history s'))
           (Tally.statesAfter votes s).
Proof.
  induction votes as [|v votes IH]; intros s Hnodup Hsum;
    cbn [Tally.statesAfter].
  - constructor.
  - constructor.
    + apply TallyFacts.recordVote_consistent; assumption.
    + apply IH.
      * rewrite TallyFacts.recordVote_names. exact Hnodup.
      * apply TallyFacts.recordVote_consistent; assumption.
Qed.

Lemma poll0_names_unique : NoDup (Tally.names poll0).
Proof.
  cbn. repeat constructor; cbn; intuition discriminate.
Defined.

Lemma votes_keep_tally_and_log_together_witness :
  Forall (fun s' => Tally.totalPicks s' = length (Tally.history s'))
         (Tally.statesAfter ["go"; "python"; "go"; "rust"] poll0).
Proof.
  exact (votes_keep_tally_and_log_together ["go"; "python"; "go"; "rust"]
           poll0 poll0_names_unique eq_refl).
Defined.

(** The same over HTTP: whatever requests are served on the storage of the
    spec, the tally and the log still agree afterwards. *)
Lemma handle_keeps_consistent (seoData : Seo) (data : Data) (env : Env)
      (route : Route) (request : Request) (w : World Tally.Store) :
  NoDup (Tally.names (store w)) ->
  Tally.consistent (store w) ->
  let w' := snd (runState (handle seoData data env route request) w) in
  NoDup (Tally.names (store w')) /\ Tally.consistent (store w').
Proof.
  intros Hnodup Hsum w'. subst w'.
  destruct route;
    run_route seoData data env request w;
    cbn [snd store getOptions getLogs processVote clearHistory TallyDb];
    try (split; assumption).
  - split.
    + rewrite TallyFacts.recordVote_names. exact Hnodup.
    + apply TallyFacts.recordVote_consistent; assumption.
  - split.
    + unfold Tally.names, Tally.clearAll. cbn.
      rewrite names_zeroed. exact Hnodup.
    + apply TallyFacts.clearAll_consistent.
Qed.

Lemma serve_keeps_consistent (seoData : Seo) (data : Data) (env : Env)
      (requests : list (Route * Request)) :
  forall w : World Tally.Store,
    NoDup (Tally.names (store w)) ->
    Tally.consistent (store w) ->
    Tally.consistent (store (snd (serve seoData data env requests w))).
Proof.
  induction requests as [|[route request] rest IH]; intros w Hnodup Hsum.
  - exact Hsum.
  - cbn [serve].
    pose proof (handle_keeps_consistent seoData data env route request
                  w Hnodup Hsum) as [Hn1 Hs1].
    destruct (runState (handle seoData data env route request) w)
      as [outcome w1].
    pose proof (IH w1 Hn1 Hs1) as Htail.
    destruct (serve seoData data env rest w1) as [outcomes w2].
    exact Htail.
Qed.

(** ** Helper calls over a sequence of requests *)

Section Journal.

Context {S : Type} {db : Db S}.
Variable seoData : Seo.
Variable data : Data.
Variable env : Env.

Lemma handle_journal (route : Route) (request : Request) (w : World S) :
  exists added : list Event,
    journal (snd (runState (handle seoData data env route request) w))
    = (journal w ++ added)%list
    /\ map called added = callsOf env (route, request).
Proof.
  unfold callsOf. cbn [fst snd].
  destruct route; run_route seoData data env request w; cbn [snd journal];
    try (eexists; split; reflexivity);
    exists []; rewrite app_nil_r; split; reflexivity.
Qed.

Lemma serve_journal (requests : list (Route * Request)) :
  forall w : World S,
  exists added : list Event,
    journal (snd (serve seoData data env requests w))
    = (journal w ++ added)%list
    /\ map called added = flat_map (callsOf env) requests.
Proof.
  induction requests as [|[route request] rest IH]; intros w.
  - exists []. cbn. rewrite app_nil_r. split; reflexivity.
  - cbn [serve flat_map].
    destruct (handle_journal route request w) as (first & Hfirst & Hcalls).
    destruct (runState (handle seoData data env route request) w)
      as [outcome w1].
    destruct (IH w1) as (others & Hothers & Hrest).
    destruct (serve seoData data env rest w1) as [outcomes w2].
    cbn [snd] in *.
    exists (first ++ others)%list. split.
    + rewrite Hothers, Hfirst, app_assoc. reflexivity.
    + rewrite map_app, Hcalls, Hrest. reflexivity.
Qed.

Lemma newCalls_of_journal (w w' : World S) (added : list Event) :
  journal w' = (journal w ++ added)%list -> newCalls w w' = added.
Proof.
  intros Hj. unfold newCalls. rewrite Hj.
  rewrite skipn_app, skipn_all, Nat.sub_diag. reflexivity.
Qed.

Lemma serve_calls (requests : list (Route * Request)) (w : World S) :
  map called (newCalls w (snd (serve seoData data env requests w)))
  = flat_map (callsOf env) requests.
Proof.
  destruct (serve_journal requests w) as (added & Hj & Hcalls).
  rewrite (newCalls_of_journal _ _ _ Hj). exact Hcalls.
Qed.

Lemma callsOf_at_most_one (rr : Route * Request) :
  length (callsOf env rr) <= 1.
Proof.
  destruct rr as [route request]. unfold callsOf. cbn [fst snd].
  destruct route; destruct (body request) as [b|]; cbn; try lia.
  - destruct (body_language b) as [vote|]; cbn; [|lia].
    destruct (negb (vote =? "")); cbn; lia.
  - destruct (authFails env b); cbn; lia.
Qed.

End Journal.

(** X1.  The helper calls made while a list of requests is served are
    fixed by the requests alone, in their order: GET / reads the options,
    GET /logs reads the log, POST / hands its vote to [processVote] when
    the vote is not empty and calls nothing otherwise, POST /reset clears
    when its key passes the guard and reads the log when it does not, and
    a POST without a body calls nothing.  No result of the storage changes
    which call comes next, and a request never leads to two calls. *)
Theorem serve_calls_follow_requests :
  forall (S : Type) (db : Db S) (seoData : Seo) (data : Data) (env : Env)
         (requests : list (Route * Request)) (w : World S),
    let w' := snd (serve seoData data env requests w) in
    map called (newCalls w w') = flat_map (callsOf env) requests
    /\ journal w' = (journal w ++ newCalls w w')%list
    /\ length (newCalls w w') <= length requests.
Proof.
  intros S db seoData data env requests w w'. subst w'.
  destruct (serve_journal seoData data env requests w)
    as (added & Hj & Hcalls).
  rewrite (newCalls_of_journal _ _ _ Hj).
  split; [exact Hcalls|]. split; [exact Hj|].
  rewrite <- (length_map called), Hcalls.
  clear. induction requests as [|rr rest IH]; cbn [flat_map].
  - apply Nat.le_refl.
  - rewrite length_app. cbn [length].
    pose proof (callsOf_at_most_one env rr). lia.
Qed.

(** X2.  While requests are served, [clearHistory] is called only for a
    POST /reset whose key passes the guard: if no request of the list is
    one, the log is never cleared, whatever else the requests carry. *)
Theorem clearHistory_only_for_accepted_reset :
  forall (S : Type) (db : Db S) (seoData : Seo) (data : Data) (env : Env)
         (requests : list (Route * Request)) (w : World S),
    forallb (fun rr => negb (clearingRequest env rr)) requests = true ->
    ~ In CallClearHistory
         (map called (newCalls w (snd (serve seoData data env requests w)))).
Proof.
  intros S db seoData data env requests w Hnone.
  rewrite serve_calls. intros Hin.
  apply in_flat_map in Hin as ([route request] & Hreq & Hcall).
  rewrite forallb_forall in Hnone. specialize (Hnone _ Hreq).
  unfold clearingRequest in Hnone. unfold callsOf in Hcall.
  cbn [fst snd] in *.
  destruct route; destruct (body request) as [b|];
    try (destruct Hcall as [Hcall|[]]; discriminate Hcall);
    try (destruct Hcall; fail).
  - destruct (body_language b) as [vote|]; [|destruct Hcall].
    destruct (truthy (Some vote)); [|destruct Hcall].
    destruct Hcall as [Hcall|[]]. discriminate Hcall.
  - destruct (authFails env b); [|discriminate Hnone].
    destruct Hcall as [Hcall|[]]. discriminate Hcall.
Qed.

Lemma clearHistory_only_for_accepted_reset_witness :
  ~ In CallClearHistory
       (map called
          (newCalls voted0
             (snd (serve seo0 data0 env0
                     [(POST_root, rawRequest (Some "go") (Some "secret"));
                      (POST_reset, rawRequest None (Some "Secret"));
                      (GET_logs, rawRequest None (Some "secret"));
                      (POST_reset, bodylessRequest);
                      (POST_reset, rawRequest (Some "secret") None)]
                     voted0)))).
Proof.
  exact (clearHistory_only_for_accepted_reset Tally.Store TallyDb seo0 data0
           env0
           [(POST_root, rawRequest (Some "go") (Some "secret"));
            (POST_reset, rawRequest None (Some "Secret"));
            (GET_logs, rawRequest None (Some "secret"));
            (POST_reset, bodylessRequest);
            (POST_reset, rawRequest (Some "secret") None)]
           voted0 eq_refl).
Defined.

Lemma votesOf_app (a b : list DbCall) :
  votesOf (a ++ b) = (votesOf a ++ votesOf b)%list.
Proof. unfold votesOf. apply flat_map_app. Qed.

(** X3.  The votes handed to [processVote] while requests are served are
    the non-empty [language] fields of the POST / requests, each once and
    in the order of the requests: no vote is dropped, repeated or moved,
    and no other request casts one. *)
Theorem votes_reach_storage_in_order :
  forall (S : Type) (db : Db S) (seoData : Seo) (data : Data) (env : Env)
         (requests : list (Route * Request)) (w : World S),
    votesOf (map called
               (newCalls w (snd (serve seoData data env requests w))))
    = submittedVotes requests.
Proof.
  intros S db seoData data env requests w.
  rewrite serve_calls. clear w.
  induction requests as [|[route request] rest IH].
  - reflexivity.
  - cbn [flat_map]. rewrite votesOf_app, IH.
    unfold submittedVotes at 2. cbn [flat_map]. f_equal.
    unfold callsOf, languageOf. cbn [fst snd].
    destruct route; destruct (body request) as [b|]; try reflexivity.
    + destruct (body_language b) as [vote|]; [|reflexivity].
      destruct (truthy (Some vote)); reflexivity.
    + destruct (body_language b);
        destruct (authFails env b); reflexivity.
Qed.

(** X19.  A handler throws exactly when it is the one of POST / or
    POST /reset and the request has no body: it then ends in the TypeError
    of reading [language] or [key], before any helper call, and leaves the
    storage and the journal as they were.  Every other request is
    answered. *)
Theorem handler_throws_exactly_without_body :
  forall (S : Type) (db : Db S) (seoData : Seo) (data : Data) (env : Env)
         (route : Route) (request : Request) (w : World S),
    let run := runState (handle seoData data env route request) w in
    if bodyMissing route request
    then fst run = Threw (match route with
                          | POST_reset => "key"
                          | _ => "language"
                          end)
         /\ snd run = w
    else exists reply, fst run = Replied reply.
Proof.
  intros S db seoData data env route request w run. subst run.
  unfold bodyMissing.
  destruct route; run_route seoData data env request w;
    cbn [fst snd]; try (eexists; reflexivity); split; reflexivity.
Qed.

(** ** The shape of a reply *)

Ltac by_storage w :=
  match goal with
  | |- context [getOptions (store w)] =>
      destruct (fst (getOptions (store w))) as [|[|? ?]]
  | |- context [processVote ?v (store w)] =>
      destruct (fst (processVote v (store w)))
  | |- context [getLogs (store w)] => destruct (fst (getLogs (store w)))
  | |- context [clearHistory (store w)] =>
      destruct (fst (clearHistory (store w)))
  | _ => idtac
  end.

(** X4.  Every reply of the four routes is rendered by the [raw] flag
    alone: with a truthy flag the handler sends the bare object, which then
    has no [seo] property; otherwise it renders the page of its route
    (index.hbs for the poll, admin.hbs for the log and the reset) with the
    loaded [seo] data among the parameters.  The handler replies unless it
    reads a body that is not there. *)
Theorem reply_rendering :
  forall (S : Type) (db : Db S) (seoData : Seo) (data : Data) (env : Env)
         (route : Route) (request : Request) (w : World S),
    match fst (runState (handle seoData data env route request) w) with
    | Replied reply =>
        payload reply
        = (if truthy (raw (query request)) then Send (sent reply)
           else View (pageOf route) (sent reply))
        /\ seo (sent reply)
           = (if truthy (raw (query request)) then None else Some seoData)
    | Threw _ => bodyMissing route request = true
    end.
Proof.
  intros S db seoData data env route request w.
  unfold bodyMissing.
  destruct route; run_route seoData data env request w;
    cbn [fst pageOf]; try reflexivity;
    by_storage w;
    unfold respond, rootParams, votedParams, initParams;
    destruct (truthy (raw (query request))); split; reflexivity.
Qed.

(** X5.  The [raw] flag changes nothing but the rendering.  Two requests
    to the same route with the same body (or both without one), on the
    same storage, make the same helper call, leave the same storage and
    journal, and end alike: with the same status and, apart from [seo], the
    same parameters, or with the same exception. *)
Theorem raw_flag_changes_rendering_only :
  forall (S : Type) (db : Db S) (seoData : Seo) (data : Data) (env : Env)
         (route : Route) (q1 q2 : Query) (b : option Body) (w : World S),
    let run1 :=
      runState (handle seoData data env route (mkRequest q1 b)) w in
    let run2 :=
      runState (handle seoData data env route (mkRequest q2 b)) w in
    snd run1 = snd run2
    /\ sameButRendering (fst run1) (fst run2).
Proof.
  intros S db seoData data env route q1 q2 b w run1 run2. subst run1 run2.
  destruct route.
  - rewrite !run_handle_get_root, !run_get_root. cbn [fst snd].
    split; [reflexivity|]. unfold sameButRendering.
    rewrite !sent_respond, !status_respond.
    destruct (fst (getOptions (store w))) as [|[|c rows]];
      unfold rootParams, initParams; cbn;
      destruct (truthy (raw q1)), (truthy (raw q2)); split; reflexivity.
  - unfold_post_routes. destruct b as [b|].
    + destruct (truthy (body_language b)) eqn:Hvote.
      * destruct (body_language b) as [vote|] eqn:Hlang; [|discriminate].
        assert (Hne : vote <> "") by (intros ->; discriminate).
        rewrite (run_post_root_voted seoData data (mkRequest q1 (Some b))
                   b vote w eq_refl Hlang Hne).
        rewrite (run_post_root_voted seoData data (mkRequest q2 (Some b))
                   b vote w eq_refl Hlang Hne).
        cbn [fst snd]. split; [reflexivity|]. unfold sameButRendering.
        rewrite !sent_respond, !status_respond.
        destruct (fst (processVote vote (store w)));
          unfold votedParams, initParams; cbn;
          destruct (truthy (raw q1)), (truthy (raw q2)); split; reflexivity.
      * rewrite (run_post_root_skipped seoData data (mkRequest q1 (Some b))
                   b w eq_refl Hvote).
        rewrite (run_post_root_skipped seoData data (mkRequest q2 (Some b))
                   b w eq_refl Hvote).
        cbn [fst snd]. split; [reflexivity|]. unfold sameButRendering.
        rewrite !sent_respond, !status_respond.
        unfold initParams; cbn;
          destruct (truthy (raw q1)), (truthy (raw q2)); split; reflexivity.
    + rewrite !run_post_root_thrown by reflexivity.
      split; reflexivity.
  - rewrite !run_handle_get_logs, !run_get_logs. cbn [fst snd].
    split; [reflexivity|]. unfold sameButRendering.
    rewrite !sent_respond, !status_respond.
    unfold initParams; cbn;
      destruct (truthy (raw q1)), (truthy (raw q2)); split; reflexivity.
  - unfold_post_routes. destruct b as [b|].
    + destruct (authFails env b) eqn:Hguard.
      * rewrite (run_post_reset_denied seoData data env
                   (mkRequest q1 (Some b)) b w eq_refl Hguard).
        rewrite (run_post_reset_denied seoData data env
                   (mkRequest q2 (Some b)) b w eq_refl Hguard).
        cbn [fst snd]. split; [reflexivity|]. unfold sameButRendering.
        rewrite !sent_respond, !status_respond.
        unfold initParams; cbn;
          destruct (truthy (raw q1)), (truthy (raw q2)); split; reflexivity.
      * rewrite (run_post_reset_granted seoData data env
                   (mkRequest q1 (Some b)) b w eq_refl Hguard).
        rewrite (run_post_reset_granted seoData data env
                   (mkRequest q2 (Some b)) b w eq_refl Hguard).
        cbn [fst snd]. split; [reflexivity|]. unfold sameButRendering.
        rewrite !sent_respond, !status_respond.
        unfold initParams; cbn;
          destruct (truthy (raw q1)), (truthy (raw q2)); split; reflexivity.
    + rewrite !run_post_reset_thrown by reflexivity.
      split; reflexivity.
Qed.

(** X6.  The only status other than 200 that a handler sets is the 401 of
    a POST /reset whose key fails the guard.  A storage failure never
    changes the status: GET /, POST / and GET /logs answer 200 on falsy
    results, and so does an accepted reset whose clearing failed.  The
    handler replies unless it reads a body that is not there. *)
Theorem status_401_only_for_refused_reset :
  forall (S : Type) (db : Db S) (seoData : Seo) (data : Data) (env : Env)
         (route : Route) (request : Request) (w : World S),
    match fst (runState (handle seoData data env route request) w) with
    | Replied reply =>
        status reply = if refused env route request then 401 else 200
    | Threw _ => bodyMissing route request = true
    end.
Proof.
  intros S db seoData data env route request w.
  unfold bodyMissing, refused.
  destruct route; run_route seoData data env request w;
    cbn [fst]; try reflexivity; apply status_respond.
Qed.

(** X7.  On every reply of the four routes [optionNames] and
    [optionCounts] come together or not at all, and when they come they are
    the [language] and [picks] columns of one list of rows, so equally
    long; only GET / and POST / ever carry them.  The handler replies
    unless it reads a body that is not there. *)
Theorem option_arrays_stay_parallel :
  forall (S : Type) (db : Db S) (seoData : Seo) (data : Data) (env : Env)
         (route : Route) (request : Request) (w : World S),
    match fst (runState (handle seoData data env route request) w) with
    | Replied reply =>
        let p := sent reply in
        (optionNames p = None /\ optionCounts p = None)
        \/ (exists rows,
               optionNames p = Some (map language rows)
               /\ optionCounts p = Some (map picks rows)
               /\ length (map language rows) = length (map picks rows)
               /\ (route = GET_root \/ route = POST_root))
    | Threw _ => bodyMissing route request = true
    end.
Proof.
  intros S db seoData data env route request w.
  unfold bodyMissing.
  destruct route; run_route seoData data env request w;
    cbn [fst]; try reflexivity; cbv zeta; rewrite sent_respond.
  - destruct (fst (getOptions (store w))) as [|rows].
    + left. unfold rootParams, initParams.
      destruct (truthy (raw (query request))); split; reflexivity.
    + right. exists rows. rewrite !length_map.
      unfold rootParams, initParams.
      destruct rows; destruct (truthy (raw (query request)));
        repeat split; left; reflexivity.
  - destruct (fst (processVote vote (store w))) as [|rows].
    + left. unfold votedParams, initParams.
      destruct (truthy (raw (query request))); split; reflexivity.
    + right. exists rows. rewrite !length_map.
      unfold votedParams, initParams.
      destruct (truthy (raw (query request)));
        repeat split; right; reflexivity.
  - left. unfold initParams.
    destruct (truthy (raw (query request))); split; reflexivity.
  - left. unfold initParams.
    destruct (truthy (raw (query request))); split; reflexivity.
  - left. unfold initParams.
    destruct (truthy (raw (query request))); split; reflexivity.
  - left. unfold initParams.
    destruct (truthy (raw (query request))); split; reflexivity.
  - left. unfold initParams.
    destruct (truthy (raw (query request))); split; reflexivity.
Qed.

(** X8.  Which properties a reply has depends on its route: [results] is
    [true] on every POST / reply, failed votes and missing votes included,
    and absent everywhere else; [optionHistory] is assigned on every
    GET /logs and POST /reset reply and on no other; [failed] is set
    exactly on a refused POST /reset; [setup] appears on GET / only.  The
    handler replies unless it reads a body that is not there. *)
Theorem reply_fields_by_route :
  forall (S : Type) (db : Db S) (seoData : Seo) (data : Data) (env : Env)
         (route : Route) (request : Request) (w : World S),
    match fst (runState (handle seoData data env route request) w) with
    | Replied reply =>
        let p := sent reply in
        results p = match route with
                    | POST_root => Some true
                    | _ => None
                    end
        /\ (optionHistory p <> None
            <-> route = GET_logs \/ route = POST_reset)
        /\ failed p = (if refused env route request
                       then Some invalidCredentials else None)
        /\ (setup p <> None -> route = GET_root)
    | Threw _ => bodyMissing route request = true
    end.
Proof.
  intros S db seoData data env route request w.
  unfold bodyMissing, refused.
  destruct route; run_route seoData data env request w;
    cbn [fst]; try reflexivity; cbv zeta; rewrite sent_respond;
    by_storage w;
    unfold rootParams, votedParams, initParams;
    destruct (truthy (raw (query request))); cbn;
    (split; [reflexivity|]);
    (split; [split; [intros Hset; try (exfalso; apply Hset; reflexivity);
                     (left; reflexivity) || (right; reflexivity)
                    |intros [Hr|Hr]; discriminate]|]);
    (split; [reflexivity|]);
    intros Hset; try reflexivity; exfalso; apply Hset; reflexivity.
Qed.

(** X9.  A POST / request with a non-empty vote hands exactly that string
    to [processVote] and makes no other call.  When rows come back the
    reply lists their names and counts and sets [error] to [null]; when the
    result is falsy the reply has no arrays and holds the generic error
    message.  Either way the status is 200 and [results] is [true]. *)
Theorem post_root_vote_reply :
  forall (S : Type) (db : Db S) (seoData : Seo) (data : Data)
         (request : Request) (vote : string) (w : World S),
    languageOf request = Some vote ->
    vote <> "" ->
    let run := runState (post_root seoData data request) w in
    let w' := snd run in
    exists reply,
      fst run = Replied reply
      /\ map called (newCalls w w') = [CallProcessVote vote]
      /\ store w' = snd (processVote vote (store w))
      /\ status reply = 200
      /\ results (sent reply) = Some true
      /\ match fst (processVote vote (store w)) with
         | Rows rows =>
             optionNames (sent reply) = Some (map language rows)
             /\ optionCounts (sent reply) = Some (map picks rows)
             /\ error (sent reply) = Null
         | Falsy =>
             optionNames (sent reply) = None
             /\ optionCounts (sent reply) = None
             /\ error (sent reply) = Val (errorMessage data)
         end.
Proof.
  intros S db seoData data request vote w Hlang Hne run w'.
  subst w' run. unfold languageOf in Hlang.
  destruct (body request) as [b|] eqn:Hbody; [|discriminate Hlang].
  rewrite (run_post_root_voted seoData data request b vote w Hbody Hlang Hne).
  cbn [fst snd]. eexists. split; [reflexivity|].
  rewrite newCalls_app, sent_respond, status_respond.
  cbn [map called store].
  split; [reflexivity|]. split; [reflexivity|]. split; [reflexivity|].
  destruct (fst (processVote vote (store w))) as [|rows];
    unfold votedParams, initParams;
    destruct (truthy (raw (query request))); repeat split.
Qed.

Lemma post_root_vote_reply_witness :
  let request := rawRequest (Some "rust") None in
  let run := runState (post_root seo0 data0 request) voted0 in
  exists reply,
    fst run = Replied reply
    /\ map called (newCalls voted0 (snd run)) = [CallProcessVote "rust"]
    /\ store (snd run) = snd (processVote "rust" (store voted0))
    /\ status reply = 200
    /\ results (sent reply) = Some true
    /\ match fst (processVote "rust" (store voted0)) with
       | Rows rows =>
           optionNames (sent reply) = Some (map language rows)
           /\ optionCounts (sent reply) = Some (map picks rows)
           /\ error (sent reply) = Null
       | Falsy =>
           optionNames (sent reply) = None
           /\ optionCounts (sent reply) = None
           /\ error (sent reply) = Val (errorMessage data0)
       end.
Proof.
  refine (post_root_vote_reply Tally.Store TallyDb seo0 data0
            (rawRequest (Some "rust") None) "rust" voted0 eq_refl _).
  discriminate.
Defined.

(** X10.  GET /logs asks for no credentials.  Its reply and its effect are
    the same whatever the body carries, also when there is none, and
    whatever ADMIN_KEY is: it reads the log once, puts the result in
    [optionHistory], never sets the failure flag, and answers 200. *)
Theorem get_logs_ignores_credentials :
  forall (S : Type) (db : Db S) (seoData : Seo) (data : Data)
         (env1 env2 : Env) (q : Query) (b1 b2 : option Body) (w : World S),
    let run1 :=
      runState (handle seoData data env1 GET_logs (mkRequest q b1)) w in
    let run2 :=
      runState (handle seoData data env2 GET_logs (mkRequest q b2)) w in
    run1 = run2
    /\ map called (newCalls w (snd run1)) = [CallGetLogs]
    /\ exists reply,
         fst run1 = Replied reply
         /\ optionHistory (sent reply) = Some (fst (getLogs (store w)))
         /\ failed (sent reply) = None
         /\ status reply = 200.
Proof.
  intros S db seoData data env1 env2 q b1 b2 w run1 run2.
  subst run1 run2. rewrite !run_handle_get_logs, !run_get_logs.
  cbn [fst snd]. rewrite newCalls_app.
  split; [reflexivity|]. split; [reflexivity|].
  eexists. split; [reflexivity|].
  rewrite sent_respond, status_respond.
  unfold initParams. cbn [query raw].
  destruct (truthy (raw q)); repeat split.
Qed.

(** X11.  A POST /reset whose key passes the guard calls [clearHistory]
    and nothing else, on every storage adapter, and does not read the log
    again: [optionHistory] is what [clearHistory] returned.  The handler
    answers 200 without a failure flag even when the clearing came back
    falsy; the reply then holds the generic error message, and [null]
    otherwise. *)
Theorem post_reset_accepted_reply :
  forall (S : Type) (db : Db S) (seoData : Seo) (data : Data) (env : Env)
         (request : Request) (b : Body) (w : World S),
    body request = Some b ->
    authFails env b = false ->
    let run := runState (post_reset seoData data env request) w in
    let w' := snd run in
    exists reply,
      fst run = Replied reply
      /\ map called (newCalls w w') = [CallClearHistory]
      /\ store w' = snd (clearHistory (store w))
      /\ status reply = 200
      /\ failed (sent reply) = None
      /\ optionHistory (sent reply) = Some (fst (clearHistory (store w)))
      /\ error (sent reply)
         = (if ok (fst (clearHistory (store w))) then Null
            else Val (errorMessage data)).
Proof.
  intros S db seoData data env request b w Hbody Hguard run w'.
  subst w' run.
  rewrite (run_post_reset_granted seoData data env request b w Hbody Hguard).
  cbn [fst snd]. eexists. split; [reflexivity|].
  rewrite newCalls_app, sent_respond, status_respond.
  cbn. rewrite failed_initParams. repeat split.
Qed.

Lemma post_reset_accepted_reply_witness :
  let request := rawRequest None (Some "secret") in
  let run := runState (post_reset seo0 data0 env0 request) offline0 in
  exists reply,
    fst run = Replied reply
    /\ map called (newCalls offline0 (snd run)) = [CallClearHistory]
    /\ store (snd run) = snd (clearHistory (store offline0))
    /\ status reply = 200
    /\ failed (sent reply) = None
    /\ optionHistory (sent reply)
       = Some (fst (clearHistory (store offline0)))
    /\ error (sent reply)
       = (if ok (fst (clearHistory (store offline0))) then Null
          else Val (errorMessage data0)).
Proof.
  exact (post_reset_accepted_reply unit OfflineDb seo0 data0 env0
           (rawRequest None (Some "secret")) (mkBody None (Some "secret"))
           offline0 eq_refl eq_refl).
Defined.

(** X12.  GET / shows the setup message exactly when [getOptions] returned
    an empty list.  An empty poll is not an error: the reply then has two
    empty arrays and no [error] property.  A falsy result gets the generic
    error message, no setup message and no arrays; rows get neither
    message. *)
Theorem get_root_setup_message :
  forall (S : Type) (db : Db S) (seoData : Seo) (data : Data)
         (request : Request) (w : World S),
    let p := sent (fst (runState (get_root seoData data request) w)) in
    match fst (getOptions (store w)) with
    | Rows [] =>
        setup p = Some (setupMessage data)
        /\ error p = Unset
        /\ optionNames p = Some [] /\ optionCounts p = Some []
    | Rows (c :: rows) =>
        setup p = None
        /\ error p = Unset
        /\ optionNames p = Some (map language (c :: rows))
        /\ optionCounts p = Some (map picks (c :: rows))
    | Falsy =>
        setup p = None
        /\ error p = Val (errorMessage data)
        /\ optionNames p = None /\ optionCounts p = None
    end.
Proof.
  intros S db seoData data request w p. subst p.
  rewrite run_get_root. cbn [fst]. rewrite sent_respond.
  destruct (fst (getOptions (store w))) as [|[|c rows]];
    unfold rootParams, initParams;
    destruct (truthy (raw (query request))); repeat split.
Qed.

(** X13.  The second test of the reset guard, on the length of the key,
    never decides: a key that gets past the first test is a non-empty
    string.  The guard is the same function without it. *)
Theorem reset_guard_length_test_redundant :
  forall (env : Env) (b : Body),
    authFails env b = authFailsShort env b.
Proof.
  intros env b. unfold authFails, authFailsShort.
  destruct (body_key b) as [k|]; [|reflexivity].
  destruct k as [|c k]; reflexivity.
Qed.

(** X14.  After seo.json is loaded its url is never the placeholder
    "glitch-default", also when PROJECT_DOMAIN is not set; a url that is
    not the placeholder is kept, and loading what was loaded changes
    nothing. *)
Theorem loadSeo_replaces_placeholder :
  forall (file : Seo) (projectDomain again : optstring),
    url (loadSeo file projectDomain) <> "glitch-default"
    /\ (url file <> "glitch-default" -> loadSeo file projectDomain = file)
    /\ loadSeo (loadSeo file projectDomain) again = loadSeo file projectDomain.
Proof.
  intros file projectDomain again.
  assert (Hfresh : forall d, url (loadSeo file d) <> "glitch-default").
  { intros d. unfold loadSeo.
    destruct (String.eqb_spec (url file) "glitch-default") as [_|Hne].
    - cbn. discriminate.
    - exact Hne. }
  split; [apply Hfresh|]. split.
  - intros Hne. unfold loadSeo.
    destruct (String.eqb_spec (url file) "glitch-default");
      [contradiction|reflexivity].
  - unfold loadSeo at 1.
    destruct (String.eqb_spec (url (loadSeo file projectDomain))
                              "glitch-default") as [Heq|_].
    + exfalso. exact (Hfresh projectDomain Heq).
    + reflexivity.
Qed.

Example loadSeo_without_project_domain :
  loadSeo (mkSeo "glitch-default") None
  = mkSeo "https://undefined.glitch.me".
Proof. reflexivity. Qed.

Lemma substring_whole (s : string) : substring 0 (String.length s) s = s.
Proof. induction s as [|c s IH]; cbn; [reflexivity|rewrite IH; reflexivity]. Qed.

(** X15.  The message of /users/:userId carries the id unchanged after its
    eleven-character prefix: cutting the prefix off gives the id back, the
    empty one included, so two ids never share a message. *)
Theorem users_userId_keeps_id :
  forall userId : string,
    substring 11 (String.length userId) (users_userId userId) = userId
    /\ substring 0 11 (users_userId userId) = "User ID is "
    /\ (forall other, users_userId userId = users_userId other ->
                      userId = other).
Proof.
  intros userId.
  assert (Hcut : forall u,
             substring 11 (String.length u) (users_userId u) = u).
  { intros u. unfold users_userId. cbn. apply substring_whole. }
  split; [apply Hcut|]. split; [destruct userId; reflexivity|].
  intros other Hsame. unfold users_userId in Hsame. cbn in Hsame.
  injection Hsame as Hsame. exact Hsame.
Qed.

(** X16.  A refused POST /reset does not tell why it was refused.  Two
    requests with the same [raw] flag that both fail the guard, for
    whatever reason and under whatever ADMIN_KEY (a missing key, a wrong
    one, no key configured), get the same reply and have the same effect on
    the same storage. *)
Theorem refused_resets_reply_alike :
  forall (S : Type) (db : Db S) (seoData : Seo) (data : Data)
         (env1 env2 : Env) (q : Query) (b1 b2 : Body) (w : World S),
    authFails env1 b1 = true ->
    authFails env2 b2 = true ->
    runState (post_reset seoData data env1 (mkRequest q (Some b1))) w
    = runState (post_reset seoData data env2 (mkRequest q (Some b2))) w.
Proof.
  intros S db seoData data env1 env2 q b1 b2 w Hfirst Hsecond.
  rewrite (run_post_reset_denied seoData data env1 (mkRequest q (Some b1))
             b1 w eq_refl Hfirst).
  rewrite (run_post_reset_denied seoData data env2 (mkRequest q (Some b2))
             b2 w eq_refl Hsecond).
  reflexivity.
Qed.

Lemma refused_resets_reply_alike_witness :
  runState (post_reset seo0 data0 env0
              (mkRequest (mkQuery None) (Some (mkBody None (Some "wrong")))))
           voted0
  = runState (post_reset seo0 data0 (mkEnv None)
                (mkRequest (mkQuery None) (Some (mkBody (Some "go") None))))
             voted0.
Proof.
  exact (refused_resets_reply_alike Tally.Store TallyDb seo0 data0
           env0 (mkEnv None) (mkQuery None)
           (mkBody None (Some "wrong")) (mkBody (Some "go") None)
           voted0 eq_refl eq_refl).
Defined.

(** X17.  For every POST /reset request that has a body, the handler's
    guard fails exactly when the spec's rule does not hold (the provided
    key is non-empty, the configured ADMIN_KEY is non-empty, and the two
    are the same string, compared character by character); the handler
    replies, the failure flag is set and the status is 401 exactly then,
    and the status is 200 otherwise. *)
Theorem post_reset_authorization :
  forall (S : Type) (db : Db S) (seoData : Seo) (data : Data) (env : Env)
         (q : Query) (b : Body) (w : World S),
    let run :=
      runState (post_reset seoData data env (mkRequest q (Some b))) w in
    let granted := credentialsMatch (body_key b) (ADMIN_KEY env) in
    (granted = true
     <-> exists k, k <> "" /\ body_key b = Some k /\ ADMIN_KEY env = Some k)
    /\ authFails env b = negb granted
    /\ exists reply,
         fst run = Replied reply
         /\ failed (sent reply)
            = (if granted then None else Some invalidCredentials)
         /\ status reply = (if granted then 200 else 401).
Proof.
  intros S db seoData data env q b w run granted.
  split; [apply credentialsMatch_spec|].
  pose proof (authFails_credentialsMatch env b) as Hguard.
  fold granted in Hguard. split; [exact Hguard|].
  subst run. destruct granted; cbn in Hguard.
  - rewrite (run_post_reset_granted seoData data env
               (mkRequest q (Some b)) b w eq_refl Hguard).
    cbn [fst]. eexists. split; [reflexivity|].
    rewrite sent_respond, status_respond. cbn.
    rewrite failed_initParams. split; reflexivity.
  - rewrite (run_post_reset_denied seoData data env
               (mkRequest q (Some b)) b w eq_refl Hguard).
    cbn [fst]. eexists. split; [reflexivity|].
    rewrite sent_respond, status_respond. split; reflexivity.
Qed.

(** X18.  A POST /reset request that has a body and fails authorization
    calls the helper once, and that call is the read [getLogs]:
    [clearHistory] is not invoked and no writing helper function runs.
    The reply carries what [getLogs] returned for the storage as it was,
    together with the failure flag and the status 401, and an adapter
    whose reads leave the storage alone ends with the storage it started
    with. *)
Theorem post_reset_denied_reads_only :
  forall (S : Type) (db : Db S) (seoData : Seo) (data : Data) (env : Env)
         (request : Request) (b : Body) (w : World S),
    body request = Some b ->
    credentialsMatch (body_key b) (ADMIN_KEY env) = false ->
    let run := runState (post_reset seoData data env request) w in
    let w' := snd run in
    exists reply,
      fst run = Replied reply
      /\ map called (newCalls w w') = [CallGetLogs]
      /\ ~ In CallClearHistory (map called (newCalls w w'))
      /\ forallb (fun e => negb (mutating (called e))) (newCalls w w') = true
      /\ optionHistory (sent reply) = Some (fst (getLogs (store w)))
      /\ failed (sent reply) = Some invalidCredentials
      /\ status reply = 401
      /\ store w' = snd (getLogs (store w))
      /\ (readOnly db -> store w' = store w).
Proof.
  intros S db seoData data env request b w Hbody Hdenied run w'.
  apply denied_guard in Hdenied.
  subst w' run.
  rewrite (run_post_reset_denied seoData data env request b w Hbody Hdenied).
  cbn [fst snd]. eexists. split; [reflexivity|].
  rewrite newCalls_app, sent_respond, status_respond. cbn.
  repeat split.
  - intros [Hin|[]]. discriminate Hin.
  - intros Hro. apply (Hro (store w)).
Qed.

Lemma post_reset_denied_reads_only_witness :
  let request := rawRequest None (Some "wrong") in
  let run := runState (post_reset seo0 data0 env0 request) voted0 in
  exists reply,
    fst run = Replied reply
    /\ map called (newCalls voted0 (snd run)) = [CallGetLogs]
    /\ ~ In CallClearHistory (map called (newCalls voted0 (snd run)))
    /\ forallb (fun e => negb (mutating (called e)))
               (newCalls voted0 (snd run)) = true
    /\ optionHistory (sent reply) = Some (fst (getLogs (store voted0)))
    /\ failed (sent reply) = Some invalidCredentials
    /\ status reply = 401
    /\ store (snd run) = snd (getLogs (store voted0))
    /\ (readOnly TallyDb -> store (snd run) = store voted0).
Proof.
  exact (post_reset_denied_reads_only Tally.Store TallyDb seo0 data0 env0
           (rawRequest None (Some "wrong")) (mkBody None (Some "wrong"))
           voted0 eq_refl eq_refl).
Defined.

Example refused_reset_keeps_the_log :
  fst (getLogs (store voted0)) = Rows [mkLogEntry "go" 0]
  /\ fst (clearHistory (store voted0)) = Rows []
  /\ Tally.history
       (store (snd (runState
                      (post_reset seo0 data0 env0
                                  (rawRequest None (Some "wrong")))
                      voted0)))
     = [mkLogEntry "go" 0].
Proof. repeat split. Qed.
